(** * claude-code-go-3sdk: the wire decoder and the session client

    A shallow embedding of the Go SDK (parser.go, client.go, transport.go,
    query.go, types.go, errors.go) together with the properties its
    specification states about them.

    Conventions of the embedding:
    - a Go [interface{}] holding decoded data is a [value]; a
      [map[string]interface{}] is a [gmap string value], a nil map is [None];
    - a Go [int] is a [Z] (64-bit), a [float64] is a [spec_float] of
      binary64, a Go string is a [string] of bytes;
    - a function returning [(T, error)] returns a [result T];
    - a channel that is read by one loop is the list of items it carries,
      and a loop over it is a recursion over that list; what a loop leaves
      unread is returned next to what it forwarded;
    - the subprocess transport is a record of its fields, every call on a
      pipe, the process or the stderr file is logged as an [effect]. *)

Set Warnings "-register-all".
From Stdlib Require Import ZArith String Ascii List Bool Lia.
From Corelib Require Import Floats.SpecFloat.
From stdpp Require Import gmap strings list fin_maps pretty.

Local Open Scope Z_scope.

(** ** Go values *)

(** What a Go [interface{}] can hold along the decode path: the JSON kinds
    that encoding/json produces, and an [int] (the integer fields of
    [MessageData] are copied into the map as Go ints). *)
Inductive value : Type :=
  | VNil
  | VBool (b : bool)
  | VInt (n : Z)
  | VFloat (f : spec_float)
  | VString (s : string)
  | VSlice (l : list value)
  | VMap (m : gmap string value).

(** [fmt.Errorf] errors and the typed [*CLIConnectionError] of errors.go. *)
Inductive error : Type :=
  | Errorf (msg : string)
  | CLIConnectionError (msg : string).

Definition NewCLIConnectionError (message : string) : error :=
  CLIConnectionError message.

Inductive result (A : Type) : Type :=
  | Ok (a : A)
  | Err (e : error).
Arguments Ok {A} a.
Arguments Err {A} e.

Definition is_ok {A} (r : result A) : bool :=
  match r with Ok _ => true | Err _ => false end.

(** Type assertions [v.(string)], [v.(bool)], ... on the result of a map
    index: a missing key yields the nil interface, on which every assertion
    fails. *)
Definition as_string (o : option value) : option string :=
  match o with Some (VString s) => Some s | _ => None end.
Definition as_bool (o : option value) : option bool :=
  match o with Some (VBool b) => Some b | _ => None end.
Definition as_float64 (o : option value) : option spec_float :=
  match o with Some (VFloat f) => Some f | _ => None end.
Definition as_map (o : option value) : option (gmap string value) :=
  match o with Some (VMap m) => Some m | _ => None end.
Definition as_slice (o : option value) : option (list value) :=
  match o with Some (VSlice l) => Some l | _ => None end.

(** [m[k]] read as an [interface{}]: nil when the key is missing. *)
Definition index (m : gmap string value) (k : string) : value :=
  match m !! k with Some v => v | None => VNil end.

(** ** float64 and int *)

Definition min_int : Z := - 2 ^ 63.
Definition max_int : Z := 2 ^ 63 - 1.

Definition float64_of_parts (neg : bool) (p q : positive) : spec_float :=
  let k := Z.max 0 (64 + Z.log2 (Zpos q) - Z.log2 (Zpos p)) in
  let n := Zpos p * 2 ^ k in
  let m := n / Zpos q in
  let r := n mod Zpos q in
  let loc := if r =? 0 then loc_Exact else loc_Inexact (2 * r ?= Zpos q) in
  binary_round_aux 53 1024 neg m (- k) loc.

(** The integer part of a float64, toward zero; none for NaN and infinities. *)
Definition float64_trunc (f : spec_float) : option Z :=
  match f with
  | S754_zero _ => Some 0
  | S754_finite s m e =>
      let a := Z.shiftl (Zpos m) e in
      Some (if s then - a else a)
  | _ => None
  end.

(** Go's conversion [int(v)] of a float64. It truncates toward zero; when the
    integer part does not fit an int the result is implementation-dependent
    (here amd64, which yields the smallest int). *)
Definition int_of_float64 (f : spec_float) : Z :=
  match float64_trunc f with
  | Some z => if (min_int <=? z) && (z <=? max_int) then z else min_int
  | None => min_int
  end.

(** ** types.go *)

Inductive ContentBlock : Type :=
  | TextBlock (Text : string)
  | ThinkingBlock (Thinking Signature : string)
  | ToolUseBlock (ID Name : string) (Input : gmap string value)
  | ToolResultBlock (ToolUseID : string) (Content : value) (IsError : option bool).

(** [UserMessage.Content] is an [interface{}] that holds either the raw
    decoded value or a [[]ContentBlock]. *)
Inductive UserContent : Type :=
  | RawContent (v : value)
  | BlockContent (blocks : list ContentBlock).

Module UserMessage.
Record t : Type := { Content : UserContent }.
End UserMessage.

Module AssistantMessage.
Record t : Type := { Content : list ContentBlock; Model : string }.
End AssistantMessage.

Module SystemMessage.
Record t : Type := { Subtype : string; Data : gmap string value }.
End SystemMessage.

Module ResultMessage.
Record t : Type := {
  Subtype : string;
  DurationMS : Z;
  DurationAPIMS : Z;
  IsError : bool;
  NumTurns : Z;
  SessionID : string;
  TotalCostUSD : option spec_float;
  Usage : option (gmap string value);
  Result : option string
}.
End ResultMessage.

Inductive Message : Type :=
  | User (m : UserMessage.t)
  | Assistant (m : AssistantMessage.t)
  | System (m : SystemMessage.t)
  | Result (m : ResultMessage.t).

(** The type assertion of a message to a pointer to [ResultMessage]. *)
Definition isResult (msg : Message) : bool :=
  match msg with Result _ => true | _ => false end.

Module MessageData.
Record t : Type := {
  Type_ : string;
  Message : option (gmap string value);
  ParentToolUseID : option string;
  SessionID : string;
  Content : value;
  Model : string;
  Subtype : string;
  Data : option (gmap string value);
  DurationMS : Z;
  DurationAPIMS : Z;
  IsError : bool;
  NumTurns : Z;
  TotalCostUSD : option spec_float;
  Usage : option (gmap string value);
  Result : option string
}.

(** The zero value [MessageData{}]. *)
Definition zero : t :=
  {| Type_ := ""; Message := None; ParentToolUseID := None; SessionID := "";
     Content := VNil; Model := ""; Subtype := ""; Data := None;
     DurationMS := 0; DurationAPIMS := 0; IsError := false; NumTurns := 0;
     TotalCostUSD := None; Usage := None; Result := None |}.
End MessageData.

(** ** encoding/json

    The decoder of Go's standard library as the SDK uses it: the grammar of
    RFC 8259 for the text of one value, [Unmarshal] into an [interface{}]
    (objects become maps, the last duplicate key wins; numbers become
    float64) and [Unmarshal] into a [MessageData] following its struct tags.
    Bytes above 127 inside a string are copied as they are. *)
Module json.

(** A number literal, kept as written: sign, integer digits, fraction
    digits with their count, exponent if there is one. *)
Record number : Type := {
  neg : bool;
  int_part : N;
  frac_part : N;
  frac_len : N;
  exp_part : option Z
}.

Inductive t : Type :=
  | Null
  | Bool (b : bool)
  | Num (n : number)
  | Str (s : string)
  | Arr (elems : list t)
  | Obj (members : list (string * t)).

Definition code (c : ascii) : N := N_of_ascii c.
Definition chr (n : N) : ascii := ascii_of_N n.

Definition is_ws (c : ascii) : bool :=
  let n := code c in
  ((n =? 32) || (n =? 9) || (n =? 10) || (n =? 13))%N.

Definition is_digit (c : ascii) : bool :=
  let n := code c in ((48 <=? n) && (n <=? 57))%N.

Fixpoint skip_ws (s : string) : string :=
  match s with
  | String c r => if is_ws c then skip_ws r else s
  | EmptyString => s
  end.

(** Reads a run of decimal digits: their value, their count, the rest. *)
Fixpoint digits (s : string) (acc cnt : N) : N * N * string :=
  match s with
  | String c r =>
      if is_digit c then digits r (acc * 10 + (code c - 48))%N (cnt + 1)%N
      else (acc, cnt, s)
  | EmptyString => (acc, cnt, s)
  end.

Definition parse_frac (s : string) : option (N * N * string) :=
  match s with
  | String "."%char r =>
      let '(f, n, r') := digits r 0%N 0%N in
      if (n =? 0)%N then None else Some (f, n, r')
  | _ => Some (0%N, 0%N, s)
  end.

Definition parse_exp_digits (sgn : bool) (s : string) : option (option Z * string) :=
  let '(e, n, r) := digits s 0%N 0%N in
  if (n =? 0)%N then None
  else Some (Some (if sgn then - Z.of_N e else Z.of_N e), r).

Definition parse_exp (s : string) : option (option Z * string) :=
  match s with
  | String c r =>
      if Ascii.eqb c "e" || Ascii.eqb c "E" then
        match r with
        | String "-"%char r' => parse_exp_digits true r'
        | String "+"%char r' => parse_exp_digits false r'
        | _ => parse_exp_digits false r
        end
      else Some (None, s)
  | EmptyString => Some (None, s)
  end.

Definition parse_number (s : string) : option (number * string) :=
  let '(sg, s1) :=
    match s with String "-"%char r => (true, r) | _ => (false, s) end in
  let int_res :=
    match s1 with
    | String "0"%char r => Some (0%N, r)
    | String c _ =>
        if is_digit c then let '(v, _, r) := digits s1 0%N 0%N in Some (v, r)
        else None
    | EmptyString => None
    end in
  match int_res with
  | None => None
  | Some (i, r1) =>
      match parse_frac r1 with
      | None => None
      | Some (f, n, r2) =>
          match parse_exp r2 with
          | None => None
          | Some (e, r3) =>
              Some ({| neg := sg; int_part := i; frac_part := f;
                       frac_len := n; exp_part := e |}, r3)
          end
      end
  end.

Definition hex_val (c : ascii) : option N :=
  let n := code c in
  if ((48 <=? n) && (n <=? 57))%N then Some (n - 48)%N
  else if ((97 <=? n) && (n <=? 102))%N then Some (n - 87)%N
  else if ((65 <=? n) && (n <=? 70))%N then Some (n - 55)%N
  else None.

Definition hex4 (a b c d : ascii) : option N :=
  match hex_val a, hex_val b, hex_val c, hex_val d with
  | Some x, Some y, Some z, Some w => Some (((x * 16 + y) * 16 + z) * 16 + w)%N
  | _, _, _, _ => None
  end.

(** UTF-8 encoding of a code point. *)
Definition utf8 (u : N) : string :=
  (if u <? 128 then String (chr u) EmptyString
   else if u <? 2048 then
     String (chr (192 + u / 64)) (String (chr (128 + u mod 64)) EmptyString)
   else if u <? 65536 then
     String (chr (224 + u / 4096))
       (String (chr (128 + (u / 64) mod 64))
          (String (chr (128 + u mod 64)) EmptyString))
   else
     String (chr (240 + u / 262144))
       (String (chr (128 + (u / 4096) mod 64))
          (String (chr (128 + (u / 64) mod 64))
             (String (chr (128 + u mod 64)) EmptyString))))%N.

Definition is_surrogate (u : N) : bool := ((55296 <=? u) && (u <? 57344))%N.
Definition is_high (u : N) : bool := ((55296 <=? u) && (u <? 56320))%N.
Definition is_low (u : N) : bool := ((56320 <=? u) && (u <? 57344))%N.
Definition replacement : N := 65533%N.

Definition prepend (p : string) (r : option (string * string)) : option (string * string) :=
  match r with
  | Some (s, rest) => Some (String.append p s, rest)
  | None => None
  end.

Definition quote : ascii := chr 34.
Definition backslash : ascii := chr 92.

(** The second half of a surrogate pair, if the text goes on with one. *)
Definition low_escape (s : string) : option (N * string) :=
  match s with
  | String e (String "u"%char (String a (String b (String c (String d r))))) =>
      if Ascii.eqb e backslash then
        match hex4 a b c d with
        | Some u => if is_low u then Some (u, r) else None
        | None => None
        end
      else None
  | _ => None
  end.

(** The body of a string literal, after its opening quote: the decoded
    bytes and what follows the closing quote. *)
Fixpoint string_body (s : string) : option (string * string) :=
  match s with
  | EmptyString => None
  | String c r =>
      if Ascii.eqb c quote then Some (EmptyString, r)
      else if (code c <? 32)%N then None
      else if Ascii.eqb c backslash then
        match r with
        | String "u"%char (String a (String b (String x (String d r')))) =>
            match hex4 a b x d with
            | None => None
            | Some u =>
                if is_surrogate u then
                  match r' with
                  | String e (String "u"%char (String a2 (String b2 (String c2 (String d2 r''))))) =>
                      match (if is_high u then low_escape r' else None) with
                      | Some (u2, _) =>
                          prepend (utf8 (65536 + (u - 55296) * 1024 + (u2 - 56320))%N)
                                  (string_body r'')
                      | None => prepend (utf8 replacement) (string_body r')
                      end
                  | _ => prepend (utf8 replacement) (string_body r')
                  end
                else prepend (utf8 u) (string_body r')
            end
        | String e r' =>
            let lit (n : N) := prepend (String (chr n) EmptyString) (string_body r') in
            if Ascii.eqb e quote then lit 34%N
            else if Ascii.eqb e backslash then lit 92%N
            else if Ascii.eqb e "/" then lit 47%N
            else if Ascii.eqb e "b" then lit 8%N
            else if Ascii.eqb e "f" then lit 12%N
            else if Ascii.eqb e "n" then lit 10%N
            else if Ascii.eqb e "r" then lit 13%N
            else if Ascii.eqb e "t" then lit 9%N
            else None
        | EmptyString => None
        end
      else prepend (String c EmptyString) (string_body r)
  end.

Fixpoint strip_prefix (p s : string) : option string :=
  match p, s with
  | EmptyString, _ => Some s
  | String a p', String b s' => if Ascii.eqb a b then strip_prefix p' s' else None
  | _, EmptyString => None
  end.

(** One value, with leading white space; [fuel] bounds the number of
    nested calls. *)
Fixpoint parse_value (fuel : nat) (s : string) : option (t * string) :=
  match fuel with
  | O => None
  | S fuel' =>
      match skip_ws s with
      | EmptyString => None
      | String c r =>
          if Ascii.eqb c "{" then
            match skip_ws r with
            | String "}"%char r' => Some (Obj [], r')
            | _ => parse_members fuel' r []
            end
          else if Ascii.eqb c "[" then
            match skip_ws r with
            | String "]"%char r' => Some (Arr [], r')
            | _ => parse_elements fuel' r []
            end
          else if Ascii.eqb c quote then
            match string_body r with
            | Some (str, r') => Some (Str str, r')
            | None => None
            end
          else if Ascii.eqb c "t" then
            match strip_prefix "rue" r with Some r' => Some (Bool true, r') | None => None end
          else if Ascii.eqb c "f" then
            match strip_prefix "alse" r with Some r' => Some (Bool false, r') | None => None end
          else if Ascii.eqb c "n" then
            match strip_prefix "ull" r with Some r' => Some (Null, r') | None => None end
          else
            match parse_number (String c r) with
            | Some (n, r') => Some (Num n, r')
            | None => None
            end
      end
  end
with parse_elements (fuel : nat) (s : string) (acc : list t) : option (t * string) :=
  match fuel with
  | O => None
  | S fuel' =>
      match parse_value fuel' s with
      | Some (v, r) =>
          match skip_ws r with
          | String ","%char r' => parse_elements fuel' r' (v :: acc)
          | String "]"%char r' => Some (Arr (rev (v :: acc)), r')
          | _ => None
          end
      | None => None
      end
  end
with parse_members (fuel : nat) (s : string) (acc : list (string * t)) : option (t * string) :=
  match fuel with
  | O => None
  | S fuel' =>
      match skip_ws s with
      | String q r =>
          if Ascii.eqb q quote then
            match string_body r with
            | Some (key, r1) =>
                match skip_ws r1 with
                | String ":"%char r2 =>
                    match parse_value fuel' r2 with
                    | Some (v, r3) =>
                        match skip_ws r3 with
                        | String ","%char r4 => parse_members fuel' r4 ((key, v) :: acc)
                        | String "}"%char r4 => Some (Obj (rev ((key, v) :: acc)), r4)
                        | _ => None
                        end
                    | None => None
                    end
                | _ => None
                end
            | None => None
            end
          else None
      | EmptyString => None
      end
  end.

(** The text of exactly one JSON value, white space around it allowed. Along
    a chain of nested calls of the functions above at least one more byte
    has been read every second call, so the fuel given here is never used
    up. *)
Definition parse (s : string) : option t :=
  match parse_value (2 * String.length s + 2)%nat s with
  | Some (v, r) =>
      match skip_ws r with EmptyString => Some v | _ => None end
  | None => None
  end.

(** [strconv.ParseInt] of a number literal into an int: digits only,
    within 64 bits. *)
Definition ParseInt (n : number) : option Z :=
  if (frac_len n =? 0)%N then
    match exp_part n with
    | Some _ => None
    | None =>
        let v := if neg n then - Z.of_N (int_part n) else Z.of_N (int_part n) in
        if (min_int <=? v) && (v <=? max_int) then Some v else None
    end
  else None.

(** [strconv.ParseFloat] of a number literal: the nearest float64, ties to
    even; a literal that rounds to an infinity is out of range. *)
Definition ParseFloat (n : number) : option spec_float :=
  let m := (int_part n * 10 ^ frac_len n + frac_part n)%N in
  let e := match exp_part n with Some x => x | None => 0 end - Z.of_N (frac_len n) in
  match m with
  | N0 => Some (S754_zero (neg n))
  | Npos p =>
      let f :=
        if 0 <=? e then float64_of_parts (neg n) (p * Z.to_pos (10 ^ e)) 1
        else float64_of_parts (neg n) p (Z.to_pos (10 ^ (- e))) in
      match f with
      | S754_finite _ _ _ | S754_zero _ => Some f
      | _ => None
      end
  end.

(** [Unmarshal] into an [interface{}]. *)
Fixpoint to_value (j : t) : option value :=
  match j with
  | Null => Some VNil
  | Bool b => Some (VBool b)
  | Num n => match ParseFloat n with Some f => Some (VFloat f) | None => None end
  | Str s => Some (VString s)
  | Arr l =>
      let fix elems (l : list t) : option (list value) :=
        match l with
        | [] => Some []
        | x :: l' =>
            match to_value x, elems l' with
            | Some v, Some vs => Some (v :: vs)
            | _, _ => None
            end
        end in
      match elems l with Some vs => Some (VSlice vs) | None => None end
  | Obj ms =>
      let fix members (ms : list (string * t)) (acc : gmap string value)
          : option (gmap string value) :=
        match ms with
        | [] => Some acc
        | (k, x) :: ms' =>
            match to_value x with
            | Some v => members ms' (<[k := v]> acc)
            | None => None
            end
        end in
      match members ms ∅ with Some m => Some (VMap m) | None => None end
  end.

(** [Unmarshal] of an object into a map that may already hold entries. *)
Fixpoint into_map (ms : list (string * t)) (acc : gmap string value)
    : option (gmap string value) :=
  match ms with
  | [] => Some acc
  | (k, x) :: ms' =>
      match to_value x with
      | Some v => into_map ms' (<[k := v]> acc)
      | None => None
      end
  end.

Definition lower (c : ascii) : ascii :=
  let n := code c in
  if ((65 <=? n) && (n <=? 90))%N then chr (n + 32) else c.

Fixpoint fold_case (s : string) : string :=
  match s with
  | EmptyString => EmptyString
  | String c r => String (lower c) (fold_case r)
  end.

(** A member key selects the struct field whose tag it equals, letter case
    ignored (the tags of [MessageData] are lower-case ASCII; the two
    non-ASCII letters Go also folds are not folded here). *)
Definition selects (key tag : string) : bool := String.eqb (fold_case key) tag.

Section Fields.
Context {A : Type}.
(** What one member does to a field of the struct: a new value, or a
    type mismatch. *)
Variable assign : A -> t -> option A.

(** The members that select the field [tag], applied in order to the
    field's current value. *)
Fixpoint field (tag : string) (ms : list (string * t)) (cur : A) : option A :=
  match ms with
  | [] => Some cur
  | (k, x) :: ms' =>
      if selects k tag then
        match assign cur x with
        | Some a => field tag ms' a
        | None => None
        end
      else field tag ms' cur
  end.
End Fields.

Definition assign_string (cur : string) (x : t) : option string :=
  match x with Str s => Some s | Null => Some cur | _ => None end.
Definition assign_bool (cur : bool) (x : t) : option bool :=
  match x with Bool b => Some b | Null => Some cur | _ => None end.
Definition assign_int (cur : Z) (x : t) : option Z :=
  match x with Num n => ParseInt n | Null => Some cur | _ => None end.
Definition assign_string_ptr (cur : option string) (x : t) : option (option string) :=
  match x with Str s => Some (Some s) | Null => Some None | _ => None end.
Definition assign_float64_ptr (cur : option spec_float) (x : t)
    : option (option spec_float) :=
  match x with
  | Num n => match ParseFloat n with Some f => Some (Some f) | None => None end
  | Null => Some None
  | _ => None
  end.
Definition assign_map (cur : option (gmap string value)) (x : t)
    : option (option (gmap string value)) :=
  match x with
  | Obj ms =>
      match into_map ms (match cur with Some m => m | None => ∅ end) with
      | Some m => Some (Some m)
      | None => None
      end
  | Null => Some None
  | _ => None
  end.
Definition assign_any (cur : value) (x : t) : option value := to_value x.

(** [Unmarshal] of a decoded value into a [MessageData]: [None] stands for
    a non-nil error. *)
Definition to_MessageData (j : t) : option MessageData.t :=
  match j with
  | Null => Some MessageData.zero
  | Obj ms =>
      ty ← field assign_string "type" ms "";
      msg ← field assign_map "message" ms None;
      parent ← field assign_string_ptr "parent_tool_use_id" ms None;
      sid ← field assign_string "session_id" ms "";
      content ← field assign_any "content" ms VNil;
      model ← field assign_string "model" ms "";
      subtype ← field assign_string "subtype" ms "";
      data ← field assign_map "data" ms None;
      dur ← field assign_int "duration_ms" ms 0;
      durapi ← field assign_int "duration_api_ms" ms 0;
      iserr ← field assign_bool "is_error" ms false;
      turns ← field assign_int "num_turns" ms 0;
      cost ← field assign_float64_ptr "total_cost_usd" ms None;
      usage ← field assign_map "usage" ms None;
      res ← field assign_string_ptr "result" ms None;
      Some {| MessageData.Type_ := ty; MessageData.Message := msg;
              MessageData.ParentToolUseID := parent; MessageData.SessionID := sid;
              MessageData.Content := content; MessageData.Model := model;
              MessageData.Subtype := subtype; MessageData.Data := data;
              MessageData.DurationMS := dur; MessageData.DurationAPIMS := durapi;
              MessageData.IsError := iserr; MessageData.NumTurns := turns;
              MessageData.TotalCostUSD := cost; MessageData.Usage := usage;
              MessageData.Result := res |}
  | _ => None
  end.

(** Whether an object has a member that selects the field [tag]. *)
Definition member (tag : string) (j : t) : bool :=
  match j with
  | Obj ms => existsb (fun kv => selects kv.1 tag) ms
  | _ => false
  end.

(** [json.Unmarshal(text, &data)] with [data] a zero [MessageData]. *)
Definition Unmarshal_MessageData (text : string) : option MessageData.t :=
  match parse text with
  | Some j => to_MessageData j
  | None => None
  end.

(** [json.Unmarshal(text, &data)] with [data] a nil map: the text must be
    an object or null. *)
Definition Unmarshal_map (text : string) : option (option (gmap string value)) :=
  match parse text with
  | Some j => assign_map None j
  | None => None
  end.
End json.

(** JSON text is written below with an apostrophe in place of each double
    quote; [wire] puts the double quotes back. *)
Fixpoint wire (s : string) : string :=
  match s with
  | EmptyString => EmptyString
  | String c r => String (if Ascii.eqb c "'" then json.quote else c) (wire r)
  end.


(** ** parser.go *)

Definition parseContentBlock (item : value) : result ContentBlock :=
  match item with
  | VMap blockData =>
      match as_string (blockData !! "type") with
      | None => Err (Errorf "content block missing 'type' field")
      | Some blockType =>
          if String.eqb blockType "text" then
            match as_string (blockData !! "text") with
            | None => Err (Errorf "text block missing 'text' field")
            | Some text => Ok (TextBlock text)
            end
          else if String.eqb blockType "thinking" then
            match as_string (blockData !! "thinking") with
            | None => Err (Errorf "thinking block missing 'thinking' field")
            | Some thinking =>
                match as_string (blockData !! "signature") with
                | None => Err (Errorf "thinking block missing 'signature' field")
                | Some signature => Ok (ThinkingBlock thinking signature)
                end
            end
          else if String.eqb blockType "tool_use" then
            match as_string (blockData !! "id") with
            | None => Err (Errorf "tool_use block missing 'id' field")
            | Some id =>
                match as_string (blockData !! "name") with
                | None => Err (Errorf "tool_use block missing 'name' field")
                | Some name =>
                    match as_map (blockData !! "input") with
                    | None => Err (Errorf "tool_use block missing 'input' field")
                    | Some input => Ok (ToolUseBlock id name input)
                    end
                end
            end
          else if String.eqb blockType "tool_result" then
            match as_string (blockData !! "tool_use_id") with
            | None => Err (Errorf "tool_result block missing 'tool_use_id' field")
            | Some toolUseID =>
                Ok (ToolResultBlock toolUseID
                      (index blockData "content")
                      (as_bool (blockData !! "is_error")))
            end
          else Err (Errorf ("unknown content block type: " +:+ blockType))
      end
  | _ => Err (Errorf "invalid content block format")
  end.

(** The loop over the elements of a content array, in [parseUserMessage] and
    in [parseAssistantMessage]: the first element that is not a valid block
    ends it with that element's error. *)
Fixpoint parseContentBlocks (items : list value) : result (list ContentBlock) :=
  match items with
  | [] => Ok []
  | item :: rest =>
      match parseContentBlock item with
      | Err e => Err e
      | Ok block =>
          match parseContentBlocks rest with
          | Err e => Err e
          | Ok blocks => Ok (block :: blocks)
          end
      end
  end.

Definition parseUserMessage (data : gmap string value) : result UserMessage.t :=
  match as_map (data !! "message") with
  | None => Err (Errorf "missing 'message' field in user message")
  | Some messageData =>
      let content := index messageData "content" in
      match content with
      | VSlice contentList =>
          match parseContentBlocks contentList with
          | Err e => Err e
          | Ok blocks => Ok {| UserMessage.Content := BlockContent blocks |}
          end
      | _ => Ok {| UserMessage.Content := RawContent content |}
      end
  end.

Definition parseAssistantMessage (data : gmap string value) : result AssistantMessage.t :=
  match as_map (data !! "message") with
  | None => Err (Errorf "missing 'message' field in assistant message")
  | Some messageData =>
      match as_string (messageData !! "model") with
      | None => Err (Errorf "missing 'model' field in assistant message")
      | Some model =>
          match as_slice (messageData !! "content") with
          | None => Err (Errorf "missing or invalid 'content' field in assistant message")
          | Some contentData =>
              match parseContentBlocks contentData with
              | Err e => Err e
              | Ok blocks =>
                  Ok {| AssistantMessage.Content := blocks;
                        AssistantMessage.Model := model |}
              end
          end
      end
  end.

Definition parseSystemMessage (data : gmap string value) : result SystemMessage.t :=
  match as_string (data !! "subtype") with
  | None => Err (Errorf "missing 'subtype' field in system message")
  | Some subtype => Ok {| SystemMessage.Subtype := subtype; SystemMessage.Data := data |}
  end.

(** [getInt] returns [(value, ok)]; [None] stands for [ok = false]. *)
Definition getInt (data : gmap string value) (key : string) : option Z :=
  match data !! key with
  | Some (VInt v) => Some v
  | Some (VFloat v) => Some (int_of_float64 v)
  | _ => None
  end.

Definition parseResultMessage (data : gmap string value) : result ResultMessage.t :=
  match as_string (data !! "subtype") with
  | None => Err (Errorf "missing 'subtype' field in result message")
  | Some subtype =>
  match getInt data "duration_ms" with
  | None => Err (Errorf "missing 'duration_ms' field in result message")
  | Some durationMS =>
  match getInt data "duration_api_ms" with
  | None => Err (Errorf "missing 'duration_api_ms' field in result message")
  | Some durationAPIMS =>
  match as_bool (data !! "is_error") with
  | None => Err (Errorf "missing 'is_error' field in result message")
  | Some isError =>
  match getInt data "num_turns" with
  | None => Err (Errorf "missing 'num_turns' field in result message")
  | Some numTurns =>
  match as_string (data !! "session_id") with
  | None => Err (Errorf "missing 'session_id' field in result message")
  | Some sessionID =>
      Ok {| ResultMessage.Subtype := subtype;
            ResultMessage.DurationMS := durationMS;
            ResultMessage.DurationAPIMS := durationAPIMS;
            ResultMessage.IsError := isError;
            ResultMessage.NumTurns := numTurns;
            ResultMessage.SessionID := sessionID;
            ResultMessage.TotalCostUSD := as_float64 (data !! "total_cost_usd");
            ResultMessage.Usage := as_map (data !! "usage");
            ResultMessage.Result := as_string (data !! "result") |}
  end end end end end end.

Definition lift {A} (wrap : A -> Message) (r : result A) : result Message :=
  match r with Ok a => Ok (wrap a) | Err e => Err e end.

Definition ParseMessage (data : gmap string value) : result Message :=
  match as_string (data !! "type") with
  | None => Err (Errorf "message missing 'type' field")
  | Some messageType =>
      if String.eqb messageType "user" then lift User (parseUserMessage data)
      else if String.eqb messageType "assistant" then lift Assistant (parseAssistantMessage data)
      else if String.eqb messageType "system" then lift System (parseSystemMessage data)
      else if String.eqb messageType "result" then lift Result (parseResultMessage data)
      else Err (Errorf ("unknown message type: " +:+ messageType))
  end.

(** [ParseMessageFromJSON]; the text of the wrapped decoder error is left
    out of the message. A JSON null leaves the map nil, which reads as an
    empty map. *)
Definition ParseMessageFromJSON (jsonData : string) : result Message :=
  match json.Unmarshal_map jsonData with
  | None => Err (Errorf "failed to parse JSON")
  | Some data => ParseMessage (match data with Some m => m | None => ∅ end)
  end.

(** ** client.go: conversion of a frame to the parser's map *)

Definition set_if (cond : bool) (k : string) (v : value) (m : gmap string value)
    : gmap string value :=
  if cond then <[k := v]> m else m.

Definition set_opt {A} (o : option A) (k : string) (f : A -> value) (m : gmap string value)
    : gmap string value :=
  match o with Some a => <[k := f a]> m | None => m end.

Definition is_nil (v : value) : bool :=
  match v with VNil => true | _ => false end.

Definition nonempty (s : string) : bool := negb (String.eqb s "").

Definition messageDataToMap (data : MessageData.t) : gmap string value :=
  let result : gmap string value := ∅ in
  let result := <["type" := VString (MessageData.Type_ data)]> result in
  let result := set_opt (MessageData.Message data) "message" VMap result in
  let result := set_opt (MessageData.ParentToolUseID data) "parent_tool_use_id" VString result in
  let result := set_if (nonempty (MessageData.SessionID data)) "session_id"
                  (VString (MessageData.SessionID data)) result in
  let result := set_if (negb (is_nil (MessageData.Content data))) "content"
                  (MessageData.Content data) result in
  let result := set_if (nonempty (MessageData.Model data)) "model"
                  (VString (MessageData.Model data)) result in
  let result := set_if (nonempty (MessageData.Subtype data)) "subtype"
                  (VString (MessageData.Subtype data)) result in
  let result := set_opt (MessageData.Data data) "data" VMap result in
  let result := set_if (0 <? MessageData.DurationMS data) "duration_ms"
                  (VInt (MessageData.DurationMS data)) result in
  let result := set_if (0 <? MessageData.DurationAPIMS data) "duration_api_ms"
                  (VInt (MessageData.DurationAPIMS data)) result in
  let result := <["is_error" := VBool (MessageData.IsError data)]> result in
  let result := set_if (0 <? MessageData.NumTurns data) "num_turns"
                  (VInt (MessageData.NumTurns data)) result in
  let result := set_opt (MessageData.TotalCostUSD data) "total_cost_usd" VFloat result in
  let result := set_opt (MessageData.Usage data) "usage" VMap result in
  let result := set_opt (MessageData.Result data) "result" VString result in
  result.

(** ** transport.go *)

Definition maxBufferSize : Z := 1024 * 1024.

(** Go's [len] of a string. *)
Definition len (s : string) : Z := Z.of_nat (String.length s).

(** [strings.TrimSpace]: the white space of Unicode, in UTF-8, removed from
    both ends. *)
Definition space_runes : list (list N) :=
  ([[9]; [10]; [11]; [12]; [13]; [32]; [194; 133]; [194; 160]; [225; 154; 128];
    [226; 128; 128]; [226; 128; 129]; [226; 128; 130]; [226; 128; 131];
    [226; 128; 132]; [226; 128; 133]; [226; 128; 134]; [226; 128; 135];
    [226; 128; 136]; [226; 128; 137]; [226; 128; 138]; [226; 128; 168];
    [226; 128; 169]; [226; 128; 175]; [226; 129; 159]; [227; 128; 128]])%N.

Fixpoint drop_rune (rune : list N) (l : list ascii) : option (list ascii) :=
  match rune, l with
  | [], _ => Some l
  | b :: rune', c :: l' => if (N_of_ascii c =? b)%N then drop_rune rune' l' else None
  | _ :: _, [] => None
  end.

Fixpoint drop_space (runes : list (list N)) (l : list ascii) : option (list ascii) :=
  match runes with
  | [] => None
  | rune :: runes' =>
      match drop_rune rune l with
      | Some l' => Some l'
      | None => drop_space runes' l
      end
  end.

Fixpoint trim_left (fuel : nat) (runes : list (list N)) (l : list ascii) : list ascii :=
  match fuel with
  | O => l
  | S fuel' =>
      match drop_space runes l with
      | Some l' => trim_left fuel' runes l'
      | None => l
      end
  end.

Definition TrimSpace (s : string) : string :=
  let l := list_ascii_of_string s in
  let l := trim_left (length l) space_runes l in
  let r := trim_left (length l) (map reverse space_runes) (reverse l) in
  string_of_list_ascii (reverse r).

(** What the transport does to the child process, its pipes and its stderr
    file, in the order it does it. Marshalling a frame and writing its line
    to stdin is one effect. *)
Inductive effect : Type :=
  | CreateStderrFile
  | StartProcess
  | WriteStdin (msg : MessageData.t)
  | CloseStdin
  | KillProcess
  | WaitProcess
  | CloseStderrFile
  | RemoveStderrFile.

Module SubprocessCLITransport.
(** The fields that the methods below read or write. [stdin] and
    [stderrFile] tell whether the field is non-nil; [cmd] is [None] for a
    nil command and otherwise tells whether [cmd.Process] is non-nil. *)
Record t : Type := {
  isStreaming : bool;
  closeStdinAfterPrompt : bool;
  cmd : option bool;
  stdin : bool;
  stderrFile : bool;
  connected : bool
}.

(** The prompt handed to the constructor, by its dynamic type; a channel is
    the list of maps it carries until it is closed. *)
Inductive prompt : Type :=
  | PromptNil
  | PromptString (s : string)
  | PromptChan (msgs : list (gmap string value))
  | PromptRecvChan (msgs : list (gmap string value))
  | PromptSlice (msgs : list (gmap string value))
  | PromptOther (type_name : string).

(** [%T] of a prompt. *)
Definition type_name (p : prompt) : string :=
  match p with
  | PromptNil => "<nil>"
  | PromptString _ => "string"
  | PromptChan _ => "chan map[string]interface {}"
  | PromptRecvChan _ => "<-chan map[string]interface {}"
  | PromptSlice _ => "[]map[string]interface {}"
  | PromptOther n => n
  end.

(** [NewSubprocessCLITransport]; [findCLI] is the outcome of the search
    for the executable, made when [cliPath] is empty. *)
Definition New (p : prompt) (cliPath : string) (closeStdin : bool)
    (findCLI : result string) : result t :=
  let make (streaming : bool) : result t :=
    let built := {| isStreaming := streaming; closeStdinAfterPrompt := closeStdin;
                    cmd := None; stdin := false; stderrFile := false;
                    connected := false |} in
    if String.eqb cliPath "" then
      match findCLI with
      | Err e => Err e
      | Ok _ => Ok built
      end
    else Ok built in
  match p with
  | PromptString _ => make false
  | PromptChan _ => make true
  | PromptRecvChan _ => make true
  | _ => Err (Errorf ("unsupported prompt type: " +:+ type_name p))
  end.

(** How far the operating system lets [Connect] get. A step that is not
    taken (the stdin pipe of a transport that does not stream) cannot fail.
    The cause wrapped into an error is left out of its text. *)
Inductive spawn : Type :=
  | TempFileFails
  | StdinPipeFails
  | StdoutPipeFails
  | StartFails
  | Started.

Definition Connect (os : spawn) (tr : t) : t * list effect * option error :=
  if connected tr then (tr, [], None)
  else
    match os with
    | TempFileFails => (tr, [], Some (Errorf "failed to create stderr file"))
    | _ =>
        let tr := {| isStreaming := isStreaming tr;
                     closeStdinAfterPrompt := closeStdinAfterPrompt tr;
                     cmd := Some false; stdin := stdin tr; stderrFile := true;
                     connected := false |} in
        let pipes : t + error :=
          if isStreaming tr then
            match os with
            | StdinPipeFails => inr (Errorf "failed to create stdin pipe")
            | _ => inl {| isStreaming := isStreaming tr;
                          closeStdinAfterPrompt := closeStdinAfterPrompt tr;
                          cmd := cmd tr; stdin := true; stderrFile := stderrFile tr;
                          connected := false |}
            end
          else inl tr in
        match pipes with
        | inr e => (tr, [CreateStderrFile], Some e)
        | inl tr =>
            match os with
            | StdoutPipeFails =>
                (tr, [CreateStderrFile], Some (Errorf "failed to create stdout pipe"))
            | StartFails =>
                (tr, [CreateStderrFile], Some (Errorf "failed to start Claude Code"))
            | _ =>
                ({| isStreaming := isStreaming tr;
                    closeStdinAfterPrompt := closeStdinAfterPrompt tr;
                    cmd := Some true; stdin := stdin tr; stderrFile := stderrFile tr;
                    connected := true |},
                 [CreateStderrFile; StartProcess], None)
            end
        end
    end.

Definition Disconnect (tr : t) : t * list effect * option error :=
  if negb (connected tr) then (tr, [], None)
  else
    let e1 := if stdin tr then [CloseStdin] else [] in
    let e2 := match cmd tr with
              | Some true => [KillProcess; WaitProcess]
              | _ => []
              end in
    let e3 := if stderrFile tr then [CloseStderrFile; RemoveStderrFile] else [] in
    ({| isStreaming := isStreaming tr;
        closeStdinAfterPrompt := closeStdinAfterPrompt tr;
        cmd := cmd tr; stdin := false; stderrFile := false; connected := false |},
     e1 ++ e2 ++ e3, None).

Definition with_session (sessionID : string) (msg : MessageData.t) : MessageData.t :=
  {| MessageData.Type_ := MessageData.Type_ msg;
     MessageData.Message := MessageData.Message msg;
     MessageData.ParentToolUseID := MessageData.ParentToolUseID msg;
     MessageData.SessionID := sessionID;
     MessageData.Content := MessageData.Content msg;
     MessageData.Model := MessageData.Model msg;
     MessageData.Subtype := MessageData.Subtype msg;
     MessageData.Data := MessageData.Data msg;
     MessageData.DurationMS := MessageData.DurationMS msg;
     MessageData.DurationAPIMS := MessageData.DurationAPIMS msg;
     MessageData.IsError := MessageData.IsError msg;
     MessageData.NumTurns := MessageData.NumTurns msg;
     MessageData.TotalCostUSD := MessageData.TotalCostUSD msg;
     MessageData.Usage := MessageData.Usage msg;
     MessageData.Result := MessageData.Result msg |}.

Section Send.
(** The outcome of marshalling one frame and writing its line to the
    child's stdin: nil, or the error of [json.Marshal] or of the write. *)
Variable write : MessageData.t -> option error.

Fixpoint send_all (metadata : gmap string value) (messages : list MessageData.t)
    : list effect * option error :=
  match messages with
  | [] => ([], None)
  | msg :: rest =>
      let msg :=
        if String.eqb (MessageData.SessionID msg) "" then
          match as_string (metadata !! "session_id") with
          | Some sessionID => with_session sessionID msg
          | None => with_session "default" msg
          end
        else msg in
      match write msg with
      | Some e => ([WriteStdin msg], Some e)
      | None =>
          let '(effs, r) := send_all metadata rest in
          (WriteStdin msg :: effs, r)
      end
  end.

Definition SendRequest (tr : t) (messages : list MessageData.t)
    (metadata : gmap string value) : list effect * option error :=
  if negb (isStreaming tr) then
    ([], Some (Errorf "SendRequest only works in streaming mode"))
  else if negb (stdin tr) then
    ([], Some (Errorf "stdin not available - stream may have ended"))
  else send_all metadata messages.
End Send.

(** [ReceiveMessages]: the channel, given as the frames it carries. *)
Definition ReceiveMessages (tr : t) (msgChan : list MessageData.t)
    : result (list MessageData.t) :=
  if negb (connected tr) then Err (Errorf "not connected") else Ok msgChan.

Definition Interrupt (tr : t) : option error :=
  Some (Errorf "interrupt not implemented for subprocess transport").

(** *** readMessages

    The goroutine that reads the child's stdout. [msgChan] holds the frames
    sent so far (its reader is assumed to keep taking them); [errChan] is
    the buffered error channel, made with capacity 1 and read by no code of
    the package, so a send on it when it is full never returns: [blocked]
    records that the goroutine is stuck in such a send. *)
Record reader : Type := {
  jsonBuffer : string;
  msgChan : list MessageData.t;
  errChan : list error;
  blocked : bool
}.

Definition errChanCap : nat := 1.

(** A reader that is running, by its buffer and the content of its two
    channels. *)
Definition running (buffer : string) (msgs : list MessageData.t) (errs : list error)
    : reader :=
  {| jsonBuffer := buffer; msgChan := msgs; errChan := errs; blocked := false |}.

Definition reader0 : reader := running "" [] [].

Definition overflow : error := Errorf "JSON message exceeded maximum buffer size".

(** The send [t.errChan <- e], after which the buffer becomes [buffer]: it
    goes through when the channel has room, and never returns otherwise. *)
Definition send_err (e : error) (buffer : string) (st : reader) : reader :=
  if (length (errChan st) <? errChanCap)%nat then
    {| jsonBuffer := buffer; msgChan := msgChan st;
       errChan := errChan st ++ [e]; blocked := false |}
  else
    {| jsonBuffer := jsonBuffer st; msgChan := msgChan st;
       errChan := errChan st; blocked := true |}.

Section Read.
(** [json.Unmarshal(text, &data)]; [None] is a non-nil error. *)
Variable Unmarshal : string -> option MessageData.t.

(** One iteration of the scanner loop, on the line [scanner.Text()]. *)
Definition read_line (st : reader) (text : string) : reader :=
  let line := TrimSpace text in
  if String.eqb line "" then st
  else
    let buffer := jsonBuffer st +:+ line in
    if maxBufferSize <? len buffer then
      send_err overflow ""
        {| jsonBuffer := buffer; msgChan := msgChan st;
           errChan := errChan st; blocked := false |}
    else
      match Unmarshal buffer with
      | Some data =>
          if String.eqb (MessageData.Type_ data) "control_response" then
            {| jsonBuffer := ""; msgChan := msgChan st;
               errChan := errChan st; blocked := false |}
          else
            {| jsonBuffer := ""; msgChan := msgChan st ++ [data];
               errChan := errChan st; blocked := false |}
      | None =>
          {| jsonBuffer := buffer; msgChan := msgChan st;
             errChan := errChan st; blocked := false |}
      end.

(** The loop over the lines the scanner yields. *)
Fixpoint read_lines (st : reader) (lines : list string) : reader :=
  match lines with
  | [] => st
  | text :: rest =>
      if blocked st then st
      else read_lines (read_line st text) rest
  end.

(** [readMessages]: the loop, then the scanner's error if it has one,
    then the error of [cmd.Wait()], told with the captured stderr when
    there is some. *)
Definition readMessages (lines : list string) (scanErr waitErr : option error)
    (stderr : string) : reader :=
  let st := read_lines reader0 lines in
  let st :=
    if blocked st then st
    else match scanErr with
         | Some e => send_err e (jsonBuffer st) st
         | None => st
         end in
  if blocked st then st
  else match waitErr with
       | Some e =>
           if 0 <? len stderr
           then send_err (Errorf ("command failed: " +:+ stderr)) (jsonBuffer st) st
           else send_err e (jsonBuffer st) st
       | None => st
       end.
End Read.
End SubprocessCLITransport.

(** ** client.go *)

(** A call either returns or panics (a failed type assertion without the
    comma-ok form, a method call on a nil interface). *)
Inductive outcome (A : Type) : Type :=
  | Returns (a : A)
  | Panics.
Arguments Returns {A} a.
Arguments Panics {A}.

(** [mapToMessageData]; it panics when ["message"] is present and is not a
    map. *)
Definition mapToMessageData (m : gmap string value) : outcome MessageData.t :=
  let build (message : option (gmap string value)) : MessageData.t :=
    {| MessageData.Type_ := default "" (as_string (m !! "type"));
       MessageData.Message := message;
       MessageData.ParentToolUseID := as_string (m !! "parent_tool_use_id");
       MessageData.SessionID := default "" (as_string (m !! "session_id"));
       MessageData.Content := index m "content";
       MessageData.Model := default "" (as_string (m !! "model"));
       MessageData.Subtype := default "" (as_string (m !! "subtype"));
       MessageData.Data := as_map (m !! "data");
       MessageData.DurationMS :=
         match m !! "duration_ms" with Some (VInt v) => v | _ => 0 end;
       MessageData.DurationAPIMS :=
         match m !! "duration_api_ms" with Some (VInt v) => v | _ => 0 end;
       MessageData.IsError := default false (as_bool (m !! "is_error"));
       MessageData.NumTurns :=
         match m !! "num_turns" with Some (VInt v) => v | _ => 0 end;
       MessageData.TotalCostUSD := as_float64 (m !! "total_cost_usd");
       MessageData.Usage := as_map (m !! "usage");
       MessageData.Result := as_string (m !! "result") |} in
  match m !! "message" with
  | None => Returns (build None)
  | Some (VMap message) => Returns (build (Some message))
  | Some _ => Panics
  end.

(** The loop shared by [Client.ReceiveMessages] and [Query]: every frame of
    [dataChan] is converted and parsed; a frame that fails to parse is
    skipped, the others are sent on in order. The context is not cancelled. *)
Fixpoint forward_parsed (dataChan : list MessageData.t) : list Message :=
  match dataChan with
  | [] => []
  | data :: rest =>
      let dataMap := messageDataToMap data in
      match ParseMessage dataMap with
      | Err _ => forward_parsed rest
      | Ok msg => msg :: forward_parsed rest
      end
  end.

(** The loop of [Client.ReceiveResponse] over the channel [allMsgs]: what it
    sends on [respChan], and what it leaves unread in [allMsgs] when it
    returns. The context is not cancelled. [allMsgs] is the unbuffered
    channel of [Client.ReceiveMessages]; how far the goroutine behind it has
    got in the transport's own channel is not part of this model. *)
Fixpoint forward_response (allMsgs : list Message) : list Message * list Message :=
  match allMsgs with
  | [] => ([], [])
  | msg :: rest =>
      if isResult msg then ([msg], rest)
      else
        let '(sent, unread) := forward_response rest in
        (msg :: sent, unread)
  end.

Module Client.
Record t : Type := {
  transport : option SubprocessCLITransport.t;
  connected : bool
}.

Definition New : t := {| transport := None; connected := false |}.

Definition not_connected : error :=
  NewCLIConnectionError "Not connected. Call Connect() first.".

Definition Connect (findCLI : result string) (os : SubprocessCLITransport.spawn)
    (c : t) (prompt : SubprocessCLITransport.prompt) : t * list effect * option error :=
  if connected c then (c, [], None)
  else
    let prompt :=
      match prompt with
      | SubprocessCLITransport.PromptNil => SubprocessCLITransport.PromptChan []
      | _ => prompt
      end in
    match SubprocessCLITransport.New prompt "" false findCLI with
    | Err e => (c, [], Some e)
    | Ok tr =>
        match SubprocessCLITransport.Connect os tr with
        | (tr, effs, Some e) =>
            ({| transport := Some tr; connected := connected c |}, effs, Some e)
        | (tr, effs, None) =>
            ({| transport := Some tr; connected := true |}, effs, None)
        end
    end.

Definition ReceiveMessages (c : t) (msgChan : list MessageData.t)
    : outcome (result (list Message)) :=
  if negb (connected c) then Returns (Err not_connected)
  else
    match transport c with
    | None => Panics
    | Some tr =>
        match SubprocessCLITransport.ReceiveMessages tr msgChan with
        | Err e => Returns (Err e)
        | Ok dataChan => Returns (Ok (forward_parsed dataChan))
        end
    end.

Fixpoint to_messages (sessionID : string) (msgs : list (gmap string value))
    : outcome (list MessageData.t) :=
  match msgs with
  | [] => Returns []
  | msg :: rest =>
      let msg :=
        match msg !! "session_id" with
        | Some _ => msg
        | None => <["session_id" := VString sessionID]> msg
        end in
      match mapToMessageData msg with
      | Panics => Panics
      | Returns msgData =>
          match to_messages sessionID rest with
          | Panics => Panics
          | Returns messages => Returns (msgData :: messages)
          end
      end
  end.

Definition user_turn (p sessionID : string) : MessageData.t :=
  {| MessageData.Type_ := "user";
     MessageData.Message :=
       Some (<["role" := VString "user"]> (<["content" := VString p]> ∅));
     MessageData.ParentToolUseID := None;
     MessageData.SessionID := sessionID;
     MessageData.Content := VNil; MessageData.Model := "";
     MessageData.Subtype := ""; MessageData.Data := None;
     MessageData.DurationMS := 0; MessageData.DurationAPIMS := 0;
     MessageData.IsError := false; MessageData.NumTurns := 0;
     MessageData.TotalCostUSD := None; MessageData.Usage := None;
     MessageData.Result := None |}.

Definition session_or_default (sessionID : string) : string :=
  if String.eqb sessionID "" then "default" else sessionID.

(** The frames [Query] builds from its prompt, by the dynamic type of the
    prompt: an error for a type it does not handle. *)
Definition prompt_messages (prompt : SubprocessCLITransport.prompt) (sessionID : string)
    : outcome (list MessageData.t) + error :=
  match prompt with
  | SubprocessCLITransport.PromptString p => inl (Returns [user_turn p sessionID])
  | SubprocessCLITransport.PromptChan msgs => inl (to_messages sessionID msgs)
  | SubprocessCLITransport.PromptSlice msgs => inl (to_messages sessionID msgs)
  | _ => inr (Errorf ("unsupported prompt type: "
                       +:+ SubprocessCLITransport.type_name prompt))
  end.

Section Send.
Variable write : MessageData.t -> option error.

(** [Query]: the effects on the transport and the error returned. *)
Definition Query (c : t) (prompt : SubprocessCLITransport.prompt) (sessionID : string)
    : list effect * outcome (option error) :=
  if negb (connected c) then ([], Returns (Some not_connected))
  else
    let sessionID := session_or_default sessionID in
    match prompt_messages prompt sessionID with
    | inr e => ([], Returns (Some e))
    | inl Panics => ([], Panics)
    | inl (Returns []) => ([], Returns None)
    | inl (Returns messages) =>
        match transport c with
        | None => ([], Panics)
        | Some tr =>
            let '(effs, err) :=
              SubprocessCLITransport.SendRequest write tr messages
                (<["session_id" := VString sessionID]> ∅) in
            (effs, Returns err)
        end
    end.
End Send.

Definition Interrupt (c : t) : outcome (option error) :=
  if negb (connected c) then Returns (Some not_connected)
  else
    match transport c with
    | None => Panics
    | Some tr => Returns (SubprocessCLITransport.Interrupt tr)
    end.


Definition Disconnect (c : t) : t * list effect * option error :=
  match transport c with
  | Some tr =>
      let '(_, effs, err) := SubprocessCLITransport.Disconnect tr in
      ({| transport := None; connected := false |}, effs, err)
  | None => (c, [], None)
  end.

Definition Close (c : t) : t * list effect * option error := Disconnect c.
End Client.

(** ** query.go *)

(** [err.Error()]. *)
Definition Error (e : error) : string :=
  match e with
  | Errorf msg => msg
  | CLIConnectionError msg => msg
  end.

Definition error_message (e : error) : Message :=
  System {| SystemMessage.Subtype := "error";
            SystemMessage.Data := <["error" := VString (Error e)]> ∅ |}.

(** [Query]: the messages sent on the returned channel until it is closed.
    [findCLI] and [os] are what the environment answers to the constructor
    and to [Connect]; [msgChan] is what the transport delivers. The context is
    not cancelled; the deferred [Disconnect] sends no message and is left
    out. *)
Definition Query (findCLI : result string) (os : SubprocessCLITransport.spawn)
    (msgChan : list MessageData.t) (prompt : SubprocessCLITransport.prompt)
    : list Message :=
  match SubprocessCLITransport.New prompt "" true findCLI with
  | Err e => [error_message e]
  | Ok tr =>
      match SubprocessCLITransport.Connect os tr with
      | (_, _, Some e) => [error_message e]
      | (tr, _, None) =>
          match SubprocessCLITransport.ReceiveMessages tr msgChan with
          | Err e => [error_message e]
          | Ok dataChan => forward_parsed dataChan
          end
      end
  end.

(** The loop of [QuerySync] over the channel of [Query]. *)
Fixpoint collect (stream : list Message) (messages : list Message)
    : list Message * option error :=
  match stream with
  | [] => (messages, None)
  | msg :: rest =>
      let messages := messages ++ [msg] in
      match msg with
      | System sysMsg =>
          if String.eqb (SystemMessage.Subtype sysMsg) "error" then
            match as_string (SystemMessage.Data sysMsg !! "error") with
            | Some errStr => (messages, Some (NewCLIConnectionError errStr))
            | None => collect rest messages
            end
          else collect rest messages
      | _ => collect rest messages
      end
  end.

Definition QuerySync (findCLI : result string) (os : SubprocessCLITransport.spawn)
    (msgChan : list MessageData.t) (prompt : SubprocessCLITransport.prompt)
    : list Message * option error :=
  collect (Query findCLI os msgChan prompt) [].

(** The kind of an effect, whatever it carries. *)
Definition same_effect (a b : effect) : bool :=
  match a, b with
  | CreateStderrFile, CreateStderrFile
  | StartProcess, StartProcess
  | WriteStdin _, WriteStdin _
  | CloseStdin, CloseStdin
  | KillProcess, KillProcess
  | WaitProcess, WaitProcess
  | CloseStderrFile, CloseStderrFile
  | RemoveStderrFile, RemoveStderrFile => true
  | _, _ => false
  end.

Fixpoint occurrences (e : effect) (effs : list effect) : nat :=
  match effs with
  | [] => O
  | x :: rest => ((if same_effect e x then 1 else 0) + occurrences e rest)%nat
  end.

(** When [QuerySync] takes a message for an error report: a system message
    of subtype "error" whose data holds a string under "error". *)
Definition error_text (msg : Message) : option string :=
  match msg with
  | System sysMsg =>
      if String.eqb (SystemMessage.Subtype sysMsg) "error"
      then as_string (SystemMessage.Data sysMsg !! "error")
      else None
  | _ => None
  end.

(** A system message of subtype "error", with or without an error text. *)
Definition is_error_subtype (msg : Message) : bool :=
  match msg with
  | System sysMsg => String.eqb (SystemMessage.Subtype sysMsg) "error"
  | _ => false
  end.

(** ** Sample sessions

    The lines of the scenarios of the specification, as the child process
    writes them, and the client and the transports they are fed to. *)
Module Sample.
Definition line_info : string := wire "{'type':'system','subtype':'info'}".
Definition line_hi : string :=
  wire "{'type':'assistant','message':{'model':'m1','content':[{'type':'text','text':'hi'}]}}".
Definition line_success : string :=
  wire "{'type':'result','subtype':'success','duration_ms':1500,'duration_api_ms':1200,'is_error':false,'num_turns':1,'session_id':'s1','total_cost_usd':0.01}".

(** The frames that [readMessages] sends for a list of lines. *)
Definition frames (lines : list string) : list MessageData.t :=
  SubprocessCLITransport.msgChan
    (SubprocessCLITransport.readMessages json.Unmarshal_MessageData lines None None "").

(** A result whose answer came without a call to the API. *)
Definition line_cached : string :=
  wire "{'type':'result','subtype':'success','duration_ms':1500,'duration_api_ms':0,'is_error':false,'num_turns':1,'session_id':'s1'}".
(** A line of 600000 bytes that is not JSON. *)
Definition noise_of (n : positive) : string :=
  string_of_list_ascii (replicate (Pos.to_nat n) "x"%char).
Definition noise : string := noise_of 600000.
Definition line_error : string := wire "{'type':'system','subtype':'error'}".

Definition info : Message :=
  System {| SystemMessage.Subtype := "info";
            SystemMessage.Data :=
              <["type" := VString "system"]>
                (<["subtype" := VString "info"]> (<["is_error" := VBool false]> ∅)) |}.
Definition error_report : Message :=
  System {| SystemMessage.Subtype := "error";
            SystemMessage.Data :=
              <["type" := VString "system"]>
                (<["subtype" := VString "error"]> (<["is_error" := VBool false]> ∅)) |}.
Definition hi : Message :=
  Assistant {| AssistantMessage.Content := [TextBlock "hi"];
               AssistantMessage.Model := "m1" |}.
Definition success : Message :=
  Result {| ResultMessage.Subtype := "success"; ResultMessage.DurationMS := 1500;
            ResultMessage.DurationAPIMS := 1200; ResultMessage.IsError := false;
            ResultMessage.NumTurns := 1; ResultMessage.SessionID := "s1";
            ResultMessage.TotalCostUSD := Some (S754_finite false 5764607523034235 (-59));
            ResultMessage.Usage := None; ResultMessage.Result := None |}.

(** The frames of [line_mystery] and [line_success]. *)
Definition frame_mystery : MessageData.t :=
  {| MessageData.Type_ := "mystery"; MessageData.Message := None;
     MessageData.ParentToolUseID := None; MessageData.SessionID := "";
     MessageData.Content := VNil; MessageData.Model := "";
     MessageData.Subtype := "info"; MessageData.Data := None;
     MessageData.DurationMS := 0; MessageData.DurationAPIMS := 0;
     MessageData.IsError := false; MessageData.NumTurns := 0;
     MessageData.TotalCostUSD := None; MessageData.Usage := None;
     MessageData.Result := None |}.
Definition frame_success : MessageData.t :=
  {| MessageData.Type_ := "result"; MessageData.Message := None;
     MessageData.ParentToolUseID := None; MessageData.SessionID := "s1";
     MessageData.Content := VNil; MessageData.Model := "";
     MessageData.Subtype := "success"; MessageData.Data := None;
     MessageData.DurationMS := 1500; MessageData.DurationAPIMS := 1200;
     MessageData.IsError := false; MessageData.NumTurns := 1;
     MessageData.TotalCostUSD := Some (S754_finite false 5764607523034235 (-59));
     MessageData.Usage := None; MessageData.Result := None |}.

(** A client connected for an interactive session (no prompt), and one
    connected with a string prompt, whose transport does not stream. *)
Definition interactive : Client.t :=
  (Client.Connect (Ok "claude") SubprocessCLITransport.Started Client.New
     SubprocessCLITransport.PromptNil).1.1.
Definition one_shot : Client.t :=
  (Client.Connect (Ok "claude") SubprocessCLITransport.Started Client.New
     (SubprocessCLITransport.PromptString "hello")).1.1.

Definition streaming_transport : SubprocessCLITransport.t :=
  {| SubprocessCLITransport.isStreaming := true;
     SubprocessCLITransport.closeStdinAfterPrompt := false;
     SubprocessCLITransport.cmd := Some true;
     SubprocessCLITransport.stdin := true;
     SubprocessCLITransport.stderrFile := true;
     SubprocessCLITransport.connected := true |}.
Definition one_shot_transport : SubprocessCLITransport.t :=
  {| SubprocessCLITransport.isStreaming := false;
     SubprocessCLITransport.closeStdinAfterPrompt := false;
     SubprocessCLITransport.cmd := Some true;
     SubprocessCLITransport.stdin := false;
     SubprocessCLITransport.stderrFile := true;
     SubprocessCLITransport.connected := true |}.
End Sample.

(** ** The field tables of the specification

    Which discriminators the specification recognizes and which fields it
    requires of each message and content block; [bad_envelope] tells that a
    map handed to the parser misses a required field or carries an
    unrecognized type, at the top or in one of its content blocks. *)

Definition recognized_type (ty : string) : bool :=
  String.eqb ty "user" || String.eqb ty "assistant"
  || String.eqb ty "system" || String.eqb ty "result".

Definition required_fields (ty : string) : list string :=
  if String.eqb ty "user" then ["message"]
  else if String.eqb ty "assistant" then ["message"]
  else if String.eqb ty "system" then ["subtype"]
  else if String.eqb ty "result" then
    ["subtype"; "duration_ms"; "duration_api_ms"; "is_error"; "num_turns"; "session_id"]
  else [].

(** The fields required inside the "message" object. *)
Definition required_message_fields (ty : string) : list string :=
  if String.eqb ty "assistant" then ["model"; "content"] else [].

Definition recognized_block (ty : string) : bool :=
  String.eqb ty "text" || String.eqb ty "thinking"
  || String.eqb ty "tool_use" || String.eqb ty "tool_result".

Definition required_block_fields (ty : string) : list string :=
  if String.eqb ty "text" then ["text"]
  else if String.eqb ty "thinking" then ["thinking"; "signature"]
  else if String.eqb ty "tool_use" then ["id"; "name"; "input"]
  else if String.eqb ty "tool_result" then ["tool_use_id"]
  else [].

Inductive bad_block : value -> Prop :=
  | bad_block_no_type blockData :
      blockData !! "type" = None -> bad_block (VMap blockData)
  | bad_block_type blockData ty :
      blockData !! "type" = Some (VString ty) ->
      recognized_block ty = false ->
      bad_block (VMap blockData)
  | bad_block_field blockData ty k :
      blockData !! "type" = Some (VString ty) ->
      k ∈ required_block_fields ty ->
      blockData !! k = None ->
      bad_block (VMap blockData).

Inductive bad_envelope (data : gmap string value) : Prop :=
  | bad_no_type :
      data !! "type" = None -> bad_envelope data
  | bad_type ty :
      data !! "type" = Some (VString ty) ->
      recognized_type ty = false ->
      bad_envelope data
  | bad_field ty k :
      data !! "type" = Some (VString ty) ->
      k ∈ required_fields ty ->
      data !! k = None ->
      bad_envelope data
  | bad_message_field ty messageData k :
      data !! "type" = Some (VString ty) ->
      data !! "message" = Some (VMap messageData) ->
      k ∈ required_message_fields ty ->
      messageData !! k = None ->
      bad_envelope data
  | bad_content ty messageData items item :
      data !! "type" = Some (VString ty) ->
      ty = "user" \/ ty = "assistant" ->
      data !! "message" = Some (VMap messageData) ->
      messageData !! "content" = Some (VSlice items) ->
      item ∈ items ->
      bad_block item ->
      bad_envelope data.

(** ** types.go: the options *)

Module MCPServerConfig.
(** The three server descriptions behind the interface [MCPServerConfig]. *)
Inductive t : Type :=
  | Stdio (Type_ Command : string) (Args : list string) (Env : gmap string string)
  | SSE (Type_ URL : string) (Headers : gmap string string)
  | HTTP (Type_ URL : string) (Headers : gmap string string).
End MCPServerConfig.

Module ClaudeCodeOptions.
(** [ExtraArgs] is a Go map that [buildCommand] ranges over; it is given
    as its entries in the order that range visits them. *)
Record t : Type := {
  AllowedTools : list string;
  MaxThinkingTokens : Z;
  SystemPrompt : option string;
  AppendSystemPrompt : option string;
  MCPServers : gmap string MCPServerConfig.t;
  MCPServersPath : option string;
  PermissionMode : option string;
  ContinueConversation : bool;
  Resume : option string;
  MaxTurns : option Z;
  DisallowedTools : list string;
  Model : option string;
  PermissionPromptToolName : option string;
  CWD : option string;
  Settings : option string;
  AddDirs : list string;
  ExtraArgs : list (string * option string)
}.
End ClaudeCodeOptions.

Definition NewClaudeCodeOptions : ClaudeCodeOptions.t :=
  {| ClaudeCodeOptions.AllowedTools := [];
     ClaudeCodeOptions.MaxThinkingTokens := 8000;
     ClaudeCodeOptions.SystemPrompt := None;
     ClaudeCodeOptions.AppendSystemPrompt := None;
     ClaudeCodeOptions.MCPServers := ∅;
     ClaudeCodeOptions.MCPServersPath := None;
     ClaudeCodeOptions.PermissionMode := None;
     ClaudeCodeOptions.ContinueConversation := false;
     ClaudeCodeOptions.Resume := None;
     ClaudeCodeOptions.MaxTurns := None;
     ClaudeCodeOptions.DisallowedTools := [];
     ClaudeCodeOptions.Model := None;
     ClaudeCodeOptions.PermissionPromptToolName := None;
     ClaudeCodeOptions.CWD := None;
     ClaudeCodeOptions.Settings := None;
     ClaudeCodeOptions.AddDirs := [];
     ClaudeCodeOptions.ExtraArgs := [] |}.

(** ** transport.go: the search for the executable *)

Section FindCLI.
(** What the environment answers: [exec.LookPath] ([None] for an error),
    whether [os.Stat] returns a nil error, the value of HOME, and
    [filepath.Join] on two elements. *)
Variable LookPath : string -> option string.
Variable Stat : string -> bool.
Variable HOME : string.
Variable filepath_Join : string -> string -> string.

Definition locations : list string :=
  [filepath_Join HOME ".npm-global/bin/claude";
   "/usr/local/bin/claude";
   filepath_Join HOME ".local/bin/claude";
   filepath_Join HOME "node_modules/.bin/claude";
   filepath_Join HOME ".yarn/bin/claude"].

Definition node_missing : error :=
  Errorf "Claude Code requires Node.js, which is not installed.

Install Node.js from: https://nodejs.org/

After installing Node.js, install Claude Code:
  npm install -g @anthropic-ai/claude-code".

Definition claude_missing : error :=
  Errorf (wire "Claude Code not found. Install with:
  npm install -g @anthropic-ai/claude-code

If already installed locally, try:
  export PATH='$HOME/node_modules/.bin:$PATH'

Or specify the path when creating transport").

Definition findCLI : result string :=
  match LookPath "claude" with
  | Some path => Ok path
  | None =>
      match List.find Stat locations with
      | Some path => Ok path
      | None =>
          match LookPath "node" with
          | None => Err node_missing
          | Some _ => Err claude_missing
          end
      end
  end.
End FindCLI.

(** ** transport.go: the command line *)

(** [strings.Join]. *)
Fixpoint Join (elems : list string) (sep : string) : string :=
  match elems with
  | [] => ""
  | [s] => s
  | s :: rest => s +:+ sep +:+ Join rest sep
  end.

(** A flag with the value behind a pointer, when the pointer is not nil. *)
Definition flag_opt (flag : string) (v : option string) : list string :=
  match v with Some s => [flag; s] | None => [] end.

(** A flag with a joined list, when the list is not empty. *)
Definition flag_list (flag : string) (l : list string) : list string :=
  match l with [] => [] | _ => [flag; Join l ","] end.

Definition add_dirs (dirs : list string) : list string :=
  flat_map (fun dir => ["--add-dir"; dir]) dirs.

Definition extra_args (args : list (string * option string)) : list string :=
  flat_map (fun kv => match kv.2 with
                      | None => ["--" +:+ kv.1]
                      | Some value => ["--" +:+ kv.1; value]
                      end) args.

Section Command.
(** The text that [json.Marshal] gives for the object with the one member
    "mcpServers" (empty when it fails: the error is dropped). *)
Variable marshalMCP : gmap string MCPServerConfig.t -> string.

Definition mcp_config (options : ClaudeCodeOptions.t) : list string :=
  if bool_decide (ClaudeCodeOptions.MCPServers options = ∅)
  then flag_opt "--mcp-config" (ClaudeCodeOptions.MCPServersPath options)
  else ["--mcp-config"; marshalMCP (ClaudeCodeOptions.MCPServers options)].

(** The arguments that tell the child where its prompt comes from. *)
Definition prompt_args (isStreaming : bool) (prompt : SubprocessCLITransport.prompt)
    : list string :=
  if isStreaming then ["--input-format"; "stream-json"]
  else match prompt with
       | SubprocessCLITransport.PromptString p => ["--print"; p]
       | _ => []
       end.

(** [buildCommand], on the fields of the transport that it reads. *)
Definition buildCommand (cliPath : string) (options : ClaudeCodeOptions.t)
    (isStreaming : bool) (prompt : SubprocessCLITransport.prompt) : list string :=
  [cliPath; "--output-format"; "stream-json"; "--verbose"]
  ++ flag_opt "--system-prompt" (ClaudeCodeOptions.SystemPrompt options)
  ++ flag_opt "--append-system-prompt" (ClaudeCodeOptions.AppendSystemPrompt options)
  ++ flag_list "--allowedTools" (ClaudeCodeOptions.AllowedTools options)
  ++ flag_opt "--max-turns" (pretty <$> ClaudeCodeOptions.MaxTurns options)
  ++ flag_list "--disallowedTools" (ClaudeCodeOptions.DisallowedTools options)
  ++ flag_opt "--model" (ClaudeCodeOptions.Model options)
  ++ flag_opt "--permission-prompt-tool" (ClaudeCodeOptions.PermissionPromptToolName options)
  ++ flag_opt "--permission-mode" (ClaudeCodeOptions.PermissionMode options)
  ++ (if ClaudeCodeOptions.ContinueConversation options then ["--continue"] else [])
  ++ flag_opt "--resume" (ClaudeCodeOptions.Resume options)
  ++ flag_opt "--settings" (ClaudeCodeOptions.Settings options)
  ++ add_dirs (ClaudeCodeOptions.AddDirs options)
  ++ mcp_config options
  ++ extra_args (ClaudeCodeOptions.ExtraArgs options)
  ++ prompt_args isStreaming prompt.
End Command.

(** ** transport.go: streamInput *)

Section StreamInput.
(** [json.Marshal] of a message of the prompt channel ([None] for an
    error), and whether the write of a line to stdin succeeds. *)
Variable marshal : gmap string value -> option string.
Variable write_ok : string -> bool.


End StreamInput.

(** ** Sessions of the client *)

(** The calls that change a client, with what the environment answers. *)
Inductive client_op : Type :=
  | DoConnect (findCLI : result string) (os : SubprocessCLITransport.spawn)
      (prompt : SubprocessCLITransport.prompt)
  | DoDisconnect.

Definition apply_op (c : Client.t) (op : client_op) : Client.t :=
  match op with
  | DoConnect findCLI os prompt => (Client.Connect findCLI os c prompt).1.1
  | DoDisconnect => (Client.Disconnect c).1.1
  end.

(** The client after a sequence of calls on a new client. *)
Definition session (ops : list client_op) : Client.t :=
  foldl apply_op Client.New ops.

(** A connected client holds a transport that is connected, with its process
    started and its stderr file open. *)
Definition client_ok (c : Client.t) : Prop :=
  Client.connected c = true ->
  exists tr, Client.transport c = Some tr
             /\ SubprocessCLITransport.connected tr = true
             /\ SubprocessCLITransport.cmd tr = Some true
             /\ SubprocessCLITransport.stderrFile tr = true.

(** The variant of a message, as the discriminator of the wire names it. *)
Definition kind (msg : Message) : string :=
  match msg with
  | User _ => "user"
  | Assistant _ => "assistant"
  | System _ => "system"
  | Result _ => "result"
  end.

(** The keys that [messageDataToMap] can write. *)
Definition frame_keys : list string :=
  ["type"; "message"; "parent_tool_use_id"; "session_id"; "content"; "model"; "subtype";
   "data"; "duration_ms"; "duration_api_ms"; "is_error"; "num_turns"; "total_cost_usd";
   "usage"; "result"].

(** The frames that [WriteStdin] effects carry. *)
Definition written (effs : list effect) : list MessageData.t :=
  omap (fun e => match e with WriteStdin msg => Some msg | _ => None end) effs.

(** The frame that [SendRequest] writes for a message: the message itself
    when it names a session, and otherwise the message with the session of
    the metadata, or "default" when the metadata names none. *)
Definition outbound (metadata : gmap string value) (msg : MessageData.t) : MessageData.t :=
  if String.eqb (MessageData.SessionID msg) "" then
    SubprocessCLITransport.with_session
      (default "default" (as_string (metadata !! "session_id"))) msg
  else msg.

(** What the lines of the child's output add up to in the reader's buffer
    when nothing empties it: each line trimmed, with nothing in between. *)
Definition joined (lines : list string) : string :=
  foldr (fun text rest => TrimSpace text +:+ rest) "" lines.

(** What holds of the reader at every point of [readMessages]. *)
Definition reader_ok (Unmarshal : string -> option MessageData.t)
    (st : SubprocessCLITransport.reader) : Prop :=
  (length (SubprocessCLITransport.errChan st) <= 1)%nat
  /\ (SubprocessCLITransport.blocked st = false ->
      len (SubprocessCLITransport.jsonBuffer st) <= maxBufferSize)
  /\ Forall (fun data =>
              MessageData.Type_ data <> "control_response"
              /\ exists text, len text <= maxBufferSize /\ Unmarshal text = Some data)
       (SubprocessCLITransport.msgChan st).

(** ** More sample values *)
Module More.
Definition frame_info : MessageData.t :=
  {| MessageData.Type_ := "system"; MessageData.Message := None;
     MessageData.ParentToolUseID := None; MessageData.SessionID := "";
     MessageData.Content := VNil; MessageData.Model := "";
     MessageData.Subtype := "info"; MessageData.Data := None;
     MessageData.DurationMS := 0; MessageData.DurationAPIMS := 0;
     MessageData.IsError := false; MessageData.NumTurns := 0;
     MessageData.TotalCostUSD := None; MessageData.Usage := None;
     MessageData.Result := None |}.

(** A transport made for a one-shot query with a string prompt. *)
Definition fresh : SubprocessCLITransport.t :=
  {| SubprocessCLITransport.isStreaming := false;
     SubprocessCLITransport.closeStdinAfterPrompt := true;
     SubprocessCLITransport.cmd := None;
     SubprocessCLITransport.stdin := false;
     SubprocessCLITransport.stderrFile := false;
     SubprocessCLITransport.connected := false |}.

(** A transport made for an interactive session. *)
Definition fresh_streaming : SubprocessCLITransport.t :=
  {| SubprocessCLITransport.isStreaming := true;
     SubprocessCLITransport.closeStdinAfterPrompt := false;
     SubprocessCLITransport.cmd := None;
     SubprocessCLITransport.stdin := false;
     SubprocessCLITransport.stderrFile := false;
     SubprocessCLITransport.connected := false |}.

(** A frame that the child prints on two lines. *)
Definition piece_1 : string := wire "  {'type':'system',  ".
Definition piece_2 : string := wire "'subtype':'init'}".

Definition frame_init : MessageData.t :=
  {| MessageData.Type_ := "system"; MessageData.Message := None;
     MessageData.ParentToolUseID := None; MessageData.SessionID := "";
     MessageData.Content := VNil; MessageData.Model := "";
     MessageData.Subtype := "init"; MessageData.Data := None;
     MessageData.DurationMS := 0; MessageData.DurationAPIMS := 0;
     MessageData.IsError := false; MessageData.NumTurns := 0;
     MessageData.TotalCostUSD := None; MessageData.Usage := None;
     MessageData.Result := None |}.
End More.

(** * Properties *)

(** ** The receive loops *)

Section ReceiveLoops.
Implicit Types (msg : Message) (msgs : list Message).



(** What is sent and what is left unread make up the channel, in order. *)
Lemma forward_response_split msgs :
  (forward_response msgs).1 ++ (forward_response msgs).2 = msgs.
Proof.
  induction msgs as [|msg msgs IH]; simpl; [reflexivity|].
  destruct (isResult msg); simpl; [reflexivity|].
  destruct (forward_response msgs) as [sent unread]; simpl in *.
  by rewrite IH.
Qed.


Lemma ReceiveMessages_connected c tr frames :
  Client.connected c = true ->
  Client.transport c = Some tr ->
  SubprocessCLITransport.connected tr = true ->
  Client.ReceiveMessages c frames = Returns (Ok (forward_parsed frames)).
Proof.
  intros Hc Htr Hconn. unfold Client.ReceiveMessages.
  rewrite Hc, Htr. simpl. unfold SubprocessCLITransport.ReceiveMessages.
  by rewrite Hconn.
Qed.
End ReceiveLoops.




(** ** Disconnect *)

Lemma transport_Disconnect_again (tr : SubprocessCLITransport.t) :
  SubprocessCLITransport.connected tr = false ->
  SubprocessCLITransport.Disconnect tr = (tr, [], None).
Proof. intros H. unfold SubprocessCLITransport.Disconnect. by rewrite H. Qed.

Lemma transport_Disconnect_effects (tr : SubprocessCLITransport.t) (e : effect) :
  (occurrences e (SubprocessCLITransport.Disconnect tr).1.2 <= 1)%nat.
Proof.
  unfold SubprocessCLITransport.Disconnect.
  destruct tr as [streaming closeStdin [[|]|] [|] [|] [|]]; destruct e; simpl; lia.
Qed.

(** C5. Two calls of [Disconnect] in a row, from any state of the client (never
    connected, connected, left half-connected by a failed [Connect], already
    disconnected): both return nil, the second call does nothing to the
    process, the pipes or the stderr file, and so every cleanup effect
    (closing stdin, killing the process, removing the stderr file) happens at
    most once over the two calls. The same holds for two calls of the
    transport's own [Disconnect]. *)
Theorem Disconnect_twice (c : Client.t) (tr : SubprocessCLITransport.t) :
  let first := Client.Disconnect c in
  let second := Client.Disconnect first.1.1 in
  let tfirst := SubprocessCLITransport.Disconnect tr in
  let tsecond := SubprocessCLITransport.Disconnect tfirst.1.1 in
  (first.2 = None /\ second.2 = None /\ second.1.2 = []
   /\ Client.transport second.1.1 = None
   /\ forall e, (occurrences e (first.1.2 ++ second.1.2) <= 1)%nat)
  /\ (tfirst.2 = None /\ tsecond.2 = None /\ tsecond.1.2 = []
      /\ SubprocessCLITransport.connected tsecond.1.1 = false
      /\ forall e, (occurrences e (tfirst.1.2 ++ tsecond.1.2) <= 1)%nat).
Proof.
  split.
  - destruct c as [[t0|] conn]; unfold Client.Disconnect; simpl.
    + pose proof (transport_Disconnect_effects t0) as Hocc.
      destruct (SubprocessCLITransport.Disconnect t0) as [[t1 effs] err] eqn:Hd.
      simpl in *. repeat split.
      * unfold SubprocessCLITransport.Disconnect in Hd.
        destruct (negb (SubprocessCLITransport.connected t0)); by inversion Hd.
      * intros e. rewrite app_nil_r. apply Hocc.
    + repeat split; try reflexivity.
      intros e. simpl. lia.
  - pose proof (transport_Disconnect_effects tr) as Hocc.
    assert (SubprocessCLITransport.connected (SubprocessCLITransport.Disconnect tr).1.1 = false) as Hoff.
    { unfold SubprocessCLITransport.Disconnect.
      destruct (SubprocessCLITransport.connected tr) eqn:Hc; simpl; [reflexivity|exact Hc]. }
    simpl. rewrite (transport_Disconnect_again _ Hoff). simpl. repeat split.
    + unfold SubprocessCLITransport.Disconnect.
      by destruct (negb (SubprocessCLITransport.connected tr)).
    + exact Hoff.
    + intros e. rewrite app_nil_r. apply Hocc.
Qed.

(** ** Sending a turn and interrupting *)

Section Sending.
Variable write : MessageData.t -> option error.


End Sending.



(** C7. [Client.Interrupt] fails with a [CLIConnectionError] on a client that
    is not connected, and on a connected client whose transport lacks
    streaming support it fails with the error of the transport's [Interrupt],
    which tells that the operation is not supported. (The subprocess
    transport returns that error in every state.) *)
Theorem Interrupt_fails (c : Client.t) :
  (Client.connected c = false ->
   Client.Interrupt c
   = Returns (Some (CLIConnectionError "Not connected. Call Connect() first.")))
  /\ (forall tr,
        Client.connected c = true ->
        Client.transport c = Some tr ->
        SubprocessCLITransport.isStreaming tr = false ->
        Client.Interrupt c
        = Returns (Some (Errorf "interrupt not implemented for subprocess transport"))).
Proof.
  unfold Client.Interrupt. split.
  - by intros ->.
  - by intros tr -> -> _.
Qed.

Lemma Interrupt_fails_sample :
  Client.Interrupt Client.New
  = Returns (Some (CLIConnectionError "Not connected. Call Connect() first."))
  /\ Client.Interrupt Sample.one_shot
     = Returns (Some (Errorf "interrupt not implemented for subprocess transport")).
Proof.
  split.
  - apply (proj1 (Interrupt_fails Client.New)). reflexivity.
  - apply (proj2 (Interrupt_fails Sample.one_shot) Sample.one_shot_transport); reflexivity.
Defined.

(** ** The parser *)

Section Parser.
Implicit Types (data : gmap string value) (item : value).

Lemma parseContentBlocks_Err items e :
  parseContentBlocks items = Err e ->
  exists item, item ∈ items /\ parseContentBlock item = Err e.
Proof.
  induction items as [|item items IH]; simpl; [discriminate|].
  destruct (parseContentBlock item) as [block|e'] eqn:Hitem.
  - destruct (parseContentBlocks items) as [blocks|e'']; [discriminate|].
    intros [= ->]. destruct IH as (item' & Hin & Hbad); [reflexivity|].
    exists item'. split; [by right|assumption].
  - intros [= ->]. exists item. split; [by left|assumption].
Qed.


Lemma ParseMessage_user data :
  data !! "type" = Some (VString "user") ->
  ParseMessage data = lift User (parseUserMessage data).
Proof. intros H. unfold ParseMessage. by rewrite H. Qed.
End Parser.

(** C9. For a map of type "user" whose "message" is an object,
    [parseUserMessage] succeeds whenever the content is not an array: the
    content, be it a string, missing (then nil) or any other value, is put
    unchanged into [UserMessage.Content], with no check. It fails only when
    "message" is missing or is not an object, or when the content is an array
    one of whose elements is not a valid content block. *)
Theorem parseUserMessage_content (data : gmap string value) :
  (forall messageData,
      data !! "type" = Some (VString "user") ->
      data !! "message" = Some (VMap messageData) ->
      (forall items, index messageData "content" <> VSlice items) ->
      parseUserMessage data
      = Ok {| UserMessage.Content := RawContent (index messageData "content") |}
      /\ ParseMessage data
         = Ok (User {| UserMessage.Content := RawContent (index messageData "content") |}))
  /\ (forall e,
        parseUserMessage data = Err e ->
        as_map (data !! "message") = None
        \/ exists messageData items item,
             data !! "message" = Some (VMap messageData)
             /\ index messageData "content" = VSlice items
             /\ item ∈ items
             /\ parseContentBlock item = Err e).
Proof.
  split.
  - intros messageData Hty Hmsg Hcontent.
    assert (parseUserMessage data
            = Ok {| UserMessage.Content := RawContent (index messageData "content") |}) as Hp.
    { unfold parseUserMessage. rewrite Hmsg. simpl.
      destruct (index messageData "content") as [| | | | |items|] eqn:Hc; try reflexivity.
      by destruct (Hcontent items). }
    split; [exact Hp|]. rewrite ParseMessage_user by assumption. by rewrite Hp.
  - intros e. unfold parseUserMessage.
    destruct (data !! "message") as [[| | | | | |messageData]|] eqn:Hmsg; simpl;
      try (by left). intros He. right.
    destruct (index messageData "content") as [| | | | |items|] eqn:Hc; try discriminate.
    destruct (parseContentBlocks items) as [blocks|e'] eqn:Hb;
      [discriminate|]. injection He as ->.
    destruct (parseContentBlocks_Err _ _ Hb) as (item & Hin & Hbad).
    by exists messageData, items, item.
Qed.

(** A user message whose content is a number, and one without content. *)
Lemma parseUserMessage_content_sample :
  ParseMessageFromJSON (wire "{'type':'user','message':{'role':'user','content':2.5}}")
  = Ok (User {| UserMessage.Content :=
                  RawContent (VFloat (S754_finite false 5629499534213120 (-51))) |})
  /\ ParseMessageFromJSON (wire "{'type':'user','message':{'role':'user'}}")
     = Ok (User {| UserMessage.Content := RawContent VNil |}).
Proof.
  split.
  - pose (messageData := <["role" := VString "user"]>
        (<["content" := VFloat (S754_finite false 5629499534213120 (-51))]> ∅)
        : gmap string value).
    pose (data := <["type" := VString "user"]> (<["message" := VMap messageData]> ∅)
        : gmap string value).
    transitivity (ParseMessage data); [vm_compute; reflexivity|].
    apply (proj1 (parseUserMessage_content data) messageData); try reflexivity.
    intros items. vm_compute. discriminate.
  - pose (messageData := <["role" := VString "user"]> ∅ : gmap string value).
    pose (data := <["type" := VString "user"]> (<["message" := VMap messageData]> ∅)
        : gmap string value).
    transitivity (ParseMessage data); [vm_compute; reflexivity|].
    apply (proj1 (parseUserMessage_content data) messageData); try reflexivity.
    intros items. vm_compute. discriminate.
Defined.

Lemma int_of_float64_finite (s : bool) (m : positive) (e : Z) :
  let num := (if s then Z.neg m else Z.pos m) * 2 ^ Z.max 0 e in
  let den := 2 ^ Z.max 0 (- e) in
  min_int <= Z.quot num den <= max_int ->
  int_of_float64 (S754_finite s m e) = Z.quot num den.
Proof.
  intros num den Hrange. unfold int_of_float64. simpl float64_trunc. cbv iota beta.
  assert (Htrunc : (if s then - Z.shiftl (Z.pos m) e else Z.shiftl (Z.pos m) e) = Z.quot num den).
  { subst num den. destruct (Z.le_gt_cases 0 e) as [He|He].
    - rewrite (Z.max_r 0 e), (Z.max_l 0 (- e)) by lia.
      rewrite Z.pow_0_r, Z.quot_1_r, Z.shiftl_mul_pow2 by lia.
      destruct s; [|reflexivity].
      change (Z.neg m) with (- Z.pos m). lia.
    - rewrite (Z.max_l 0 e), (Z.max_r 0 (- e)) by lia.
      rewrite Z.pow_0_r, Z.mul_1_r.
      replace (Z.shiftl (Z.pos m) e) with (Z.shiftr (Z.pos m) (- e))
        by (rewrite <- Z.shiftl_opp_r; f_equal; lia).
      rewrite Z.shiftr_div_pow2 by lia.
      assert (0 < 2 ^ (- e)) by (apply Z.pow_pos_nonneg; lia).
      rewrite <- (Z.quot_div_nonneg (Z.pos m)) by lia.
      destruct s; [|reflexivity].
      change (Z.neg m) with (- Z.pos m). rewrite Z.quot_opp_l by lia. reflexivity. }
  rewrite Htrunc.
  destruct (min_int <=? Z.quot num den) eqn:H1; [|lia].
  destruct (Z.quot num den <=? max_int) eqn:H2; [reflexivity|lia].
Qed.

(** C10. A result map whose integer fields hold float64 values, integral or
    not, decodes: [getInt] takes any float64 and converts it with Go's
    [int(v)], and [parseResultMessage] stores the three converted values. The
    conversion of a finite float64 of sign [s], mantissa [m] and exponent [e],
    that is of the number [num / den] below, is its quotient rounded toward
    zero whenever that fits an int. *)
Theorem getInt_truncates_float64 (data : gmap string value) :
  (forall key f, data !! key = Some (VFloat f) -> getInt data key = Some (int_of_float64 f))
  /\ (forall subtype isError sessionID f1 f2 f3,
        data !! "subtype" = Some (VString subtype) ->
        data !! "duration_ms" = Some (VFloat f1) ->
        data !! "duration_api_ms" = Some (VFloat f2) ->
        data !! "is_error" = Some (VBool isError) ->
        data !! "num_turns" = Some (VFloat f3) ->
        data !! "session_id" = Some (VString sessionID) ->
        parseResultMessage data
        = Ok {| ResultMessage.Subtype := subtype;
                ResultMessage.DurationMS := int_of_float64 f1;
                ResultMessage.DurationAPIMS := int_of_float64 f2;
                ResultMessage.IsError := isError;
                ResultMessage.NumTurns := int_of_float64 f3;
                ResultMessage.SessionID := sessionID;
                ResultMessage.TotalCostUSD := as_float64 (data !! "total_cost_usd");
                ResultMessage.Usage := as_map (data !! "usage");
                ResultMessage.Result := as_string (data !! "result") |})
  /\ (forall (s : bool) (m : positive) (e : Z),
        let num := (if s then Z.neg m else Z.pos m) * 2 ^ Z.max 0 e in
        let den := 2 ^ Z.max 0 (- e) in
        min_int <= Z.quot num den <= max_int ->
        int_of_float64 (S754_finite s m e) = Z.quot num den).
Proof.
  split; [|split].
  - intros key f H. unfold getInt. by rewrite H.
  - intros subtype isError sessionID f1 f2 f3 Hsub Hd Hda Herr Hturns Hsid.
    unfold parseResultMessage, getInt.
    rewrite Hsub, Hd, Hda, Herr, Hturns, Hsid. reflexivity.
  - apply int_of_float64_finite.
Qed.

(** The line with duration_ms = 1500.9, given to [ParseMessageFromJSON]: the
    number is the float64 6601028008515994 / 2^42, and DurationMS is 1500. *)
Lemma getInt_truncates_float64_sample :
  ParseMessageFromJSON
    (wire "{'type':'result','subtype':'success','duration_ms':1500.9,'duration_api_ms':1200.5,'is_error':false,'num_turns':1.0,'session_id':'s1'}")
  = Ok (Result {| ResultMessage.Subtype := "success";
                  ResultMessage.DurationMS := 1500;
                  ResultMessage.DurationAPIMS := 1200;
                  ResultMessage.IsError := false;
                  ResultMessage.NumTurns := 1;
                  ResultMessage.SessionID := "s1";
                  ResultMessage.TotalCostUSD := None;
                  ResultMessage.Usage := None;
                  ResultMessage.Result := None |})
  /\ int_of_float64 (S754_finite false 6601028008515994 (-42)) = Z.quot 6601028008515994 (2 ^ 42).
Proof.
  split.
  - pose (data := <["type" := VString "result"]> (<["subtype" := VString "success"]>
        (<["duration_ms" := VFloat (S754_finite false 6601028008515994 (-42))]>
        (<["duration_api_ms" := VFloat (S754_finite false 5279854836580352 (-42))]>
        (<["is_error" := VBool false]>
        (<["num_turns" := VFloat (S754_finite false 4503599627370496 (-52))]>
        (<["session_id" := VString "s1"]> ∅)))))) : gmap string value).
    transitivity (lift Result (parseResultMessage data)); [vm_compute; reflexivity|].
    rewrite (proj1 (proj2 (getInt_truncates_float64 data)) "success" false "s1"
               (S754_finite false 6601028008515994 (-42))
               (S754_finite false 5279854836580352 (-42))
               (S754_finite false 4503599627370496 (-52))) by reflexivity.
    vm_compute. reflexivity.
  - apply (proj2 (proj2 (getInt_truncates_float64 ∅)) false 6601028008515994%positive (-42)).
    vm_compute. split; discriminate.
Defined.

(** ** The frame conversion *)

Section FrameMap.
Implicit Types (m : gmap string value) (k : string) (v : value).

Lemma lookup_set_if_ne (cond : bool) k k' v m :
  k <> k' -> set_if cond k v m !! k' = m !! k'.
Proof. intros H. unfold set_if. destruct cond; [by apply lookup_insert_ne|reflexivity]. Qed.

Lemma lookup_set_if_eq (cond : bool) k v m :
  set_if cond k v m !! k = if cond then Some v else m !! k.
Proof. unfold set_if. destruct cond; [by apply lookup_insert_eq|reflexivity]. Qed.

Lemma lookup_set_opt_ne {A} (o : option A) (f : A -> value) k k' m :
  k <> k' -> set_opt o k f m !! k' = m !! k'.
Proof. intros H. unfold set_opt. destruct o; [by apply lookup_insert_ne|reflexivity]. Qed.

Lemma lookup_set_opt_eq {A} (o : option A) (f : A -> value) k m :
  set_opt o k f m !! k = match o with Some a => Some (f a) | None => m !! k end.
Proof. unfold set_opt. destruct o; [by apply lookup_insert_eq|reflexivity]. Qed.
End FrameMap.

(** Reads one key of [messageDataToMap d]: the assignments to other keys
    are skipped, the one to the key itself is kept. *)
Ltac frame_lookup :=
  unfold messageDataToMap;
  repeat first
    [ rewrite lookup_set_if_ne by discriminate
    | rewrite lookup_set_opt_ne by discriminate
    | rewrite lookup_insert_ne by discriminate
    | rewrite lookup_set_if_eq
    | rewrite lookup_set_opt_eq
    | rewrite lookup_insert_eq
    | rewrite lookup_empty ].

Section FrameFields.
Variable d : MessageData.t.

Lemma frame_type : messageDataToMap d !! "type" = Some (VString (MessageData.Type_ d)).
Proof. by frame_lookup. Qed.

Lemma frame_is_error :
  messageDataToMap d !! "is_error" = Some (VBool (MessageData.IsError d)).
Proof. by frame_lookup. Qed.

Lemma frame_subtype :
  messageDataToMap d !! "subtype"
  = if nonempty (MessageData.Subtype d) then Some (VString (MessageData.Subtype d)) else None.
Proof. by frame_lookup. Qed.

Lemma frame_session_id :
  messageDataToMap d !! "session_id"
  = if nonempty (MessageData.SessionID d)
    then Some (VString (MessageData.SessionID d)) else None.
Proof. by frame_lookup. Qed.

Lemma frame_duration_ms :
  messageDataToMap d !! "duration_ms"
  = if 0 <? MessageData.DurationMS d then Some (VInt (MessageData.DurationMS d)) else None.
Proof. by frame_lookup. Qed.

Lemma frame_duration_api_ms :
  messageDataToMap d !! "duration_api_ms"
  = if 0 <? MessageData.DurationAPIMS d
    then Some (VInt (MessageData.DurationAPIMS d)) else None.
Proof. by frame_lookup. Qed.

Lemma frame_num_turns :
  messageDataToMap d !! "num_turns"
  = if 0 <? MessageData.NumTurns d then Some (VInt (MessageData.NumTurns d)) else None.
Proof. by frame_lookup. Qed.

Lemma frame_total_cost_usd :
  messageDataToMap d !! "total_cost_usd" = VFloat <$> MessageData.TotalCostUSD d.
Proof. frame_lookup. by destruct (MessageData.TotalCostUSD d). Qed.

Lemma frame_usage : messageDataToMap d !! "usage" = VMap <$> MessageData.Usage d.
Proof. frame_lookup. by destruct (MessageData.Usage d). Qed.

Lemma frame_result : messageDataToMap d !! "result" = VString <$> MessageData.Result d.
Proof. frame_lookup. by destruct (MessageData.Result d). Qed.

Lemma frame_message : messageDataToMap d !! "message" = VMap <$> MessageData.Message d.
Proof. frame_lookup. by destruct (MessageData.Message d). Qed.
End FrameFields.

(** A result frame whose fields are all set to non-zero values reaches the
    typed message with every field unchanged. *)
Lemma result_frame_decodes (d : MessageData.t) :
  MessageData.Type_ d = "result" ->
  MessageData.Subtype d <> "" ->
  MessageData.SessionID d <> "" ->
  0 < MessageData.DurationMS d ->
  0 < MessageData.DurationAPIMS d ->
  0 < MessageData.NumTurns d ->
  ParseMessage (messageDataToMap d)
  = Ok (Result {| ResultMessage.Subtype := MessageData.Subtype d;
                  ResultMessage.DurationMS := MessageData.DurationMS d;
                  ResultMessage.DurationAPIMS := MessageData.DurationAPIMS d;
                  ResultMessage.IsError := MessageData.IsError d;
                  ResultMessage.NumTurns := MessageData.NumTurns d;
                  ResultMessage.SessionID := MessageData.SessionID d;
                  ResultMessage.TotalCostUSD := MessageData.TotalCostUSD d;
                  ResultMessage.Usage := MessageData.Usage d;
                  ResultMessage.Result := MessageData.Result d |}).
Proof.
  intros Hty Hsub Hsid Hd Hda Hturns.
  unfold ParseMessage. rewrite frame_type, Hty. simpl.
  unfold parseResultMessage, getInt.
  rewrite frame_subtype, frame_duration_ms, frame_duration_api_ms, frame_is_error,
    frame_num_turns, frame_session_id, frame_total_cost_usd, frame_usage, frame_result.
  unfold nonempty.
  destruct (String.eqb_spec (MessageData.Subtype d) "") as [|_]; [done|].
  destruct (String.eqb_spec (MessageData.SessionID d) "") as [|_]; [done|].
  destruct (Z.ltb_spec 0 (MessageData.DurationMS d)); [|lia].
  destruct (Z.ltb_spec 0 (MessageData.DurationAPIMS d)); [|lia].
  destruct (Z.ltb_spec 0 (MessageData.NumTurns d)); [|lia].
  simpl. do 2 f_equal.
  destruct (MessageData.TotalCostUSD d), (MessageData.Usage d), (MessageData.Result d);
    reflexivity.
Qed.

(** A result frame with a zero among its integer fields is not decoded. *)
Lemma result_frame_with_zero_dropped (d : MessageData.t) :
  MessageData.Type_ d = "result" ->
  MessageData.DurationMS d = 0 \/ MessageData.DurationAPIMS d = 0
  \/ MessageData.NumTurns d = 0 ->
  is_ok (ParseMessage (messageDataToMap d)) = false.
Proof.
  intros Hty Hzero.
  unfold ParseMessage. rewrite frame_type, Hty. simpl.
  unfold parseResultMessage, getInt.
  rewrite frame_subtype, frame_duration_ms, frame_duration_api_ms, frame_is_error,
    frame_num_turns, frame_session_id.
  destruct (nonempty (MessageData.Subtype d)); [|reflexivity]. simpl.
  destruct (Z.ltb_spec 0 (MessageData.DurationMS d)); [|reflexivity].
  destruct (Z.ltb_spec 0 (MessageData.DurationAPIMS d)); [|reflexivity]. simpl.
  destruct (Z.ltb_spec 0 (MessageData.NumTurns d)); [|reflexivity].
  lia.
Qed.

(** The concrete result line of the specification decodes, through
    [readMessages], the frame conversion and the parser, to the result
    message with DurationMS 1500, DurationAPIMS 1200, IsError false, NumTurns
    1, SessionID "s1", TotalCostUSD the float64 of 0.01, and no Result. *)
Lemma result_line_decodes :
  forward_parsed (Sample.frames [Sample.line_success]) = [Sample.success].
Proof. vm_compute. reflexivity. Qed.

(** C2 at a failing input. A result line that is valid and has every
    required field, with an API duration of 0 ms: it is unmarshalled into a
    frame, the frame conversion leaves duration_api_ms out of the map because
    the value is not positive, the parser reports the field as missing and the
    receive loop drops the message. [ParseMessageFromJSON] decodes the same
    line. *)
Theorem result_line_with_zero_duration_dropped :
  (fun d => ParseMessage (messageDataToMap d)) <$> json.Unmarshal_MessageData Sample.line_cached
  = Some (Err (Errorf "missing 'duration_api_ms' field in result message"))
  /\ forward_parsed (Sample.frames [Sample.line_cached]) = []
  /\ ParseMessageFromJSON Sample.line_cached
     = Ok (Result {| ResultMessage.Subtype := "success"; ResultMessage.DurationMS := 1500;
                     ResultMessage.DurationAPIMS := 0; ResultMessage.IsError := false;
                     ResultMessage.NumTurns := 1; ResultMessage.SessionID := "s1";
                     ResultMessage.TotalCostUSD := None; ResultMessage.Usage := None;
                     ResultMessage.Result := None |}).
Proof. repeat split; vm_compute; reflexivity. Qed.

(** ** The synchronous query *)

Section Collect.
Implicit Types (msg : Message) (stream acc : list Message).

Lemma collect_acc stream acc :
  collect stream acc = (acc ++ (collect stream []).1, (collect stream []).2).
Proof.
  revert acc. induction stream as [|msg stream IH]; intros acc; simpl.
  - by rewrite app_nil_r.
  - assert (Hgo : collect stream (acc ++ [msg])
                  = (acc ++ (collect stream [msg]).1, (collect stream [msg]).2)).
    { rewrite (IH (acc ++ [msg])), (IH [msg]). simpl. by rewrite <- app_assoc. }
    destruct msg as [| |sysMsg|]; try exact Hgo.
    destruct (String.eqb (SystemMessage.Subtype sysMsg) "error"); [|exact Hgo].
    destruct (as_string (SystemMessage.Data sysMsg !! "error")); [reflexivity|exact Hgo].
Qed.

Lemma collect_step msg stream :
  error_text msg = None ->
  collect (msg :: stream) [] = (msg :: (collect stream []).1, (collect stream []).2).
Proof.
  intros H. simpl. rewrite (collect_acc stream [msg]). simpl.
  destruct msg as [| |sysMsg|]; try reflexivity. simpl in H.
  destruct (String.eqb (SystemMessage.Subtype sysMsg) "error"); [|reflexivity].
  by rewrite H.
Qed.

Lemma collect_all stream :
  Forall (fun msg => error_text msg = None) stream ->
  collect stream [] = (stream, None).
Proof.
  induction 1 as [|msg stream Hmsg _ IH]; [reflexivity|].
  rewrite collect_step by assumption. by rewrite IH.
Qed.

Lemma collect_stops pre msg post errStr :
  Forall (fun msg => error_text msg = None) pre ->
  error_text msg = Some errStr ->
  collect (pre ++ msg :: post) [] = (pre ++ [msg], Some (CLIConnectionError errStr)).
Proof.
  induction 1 as [|m pre Hm _ IH]; intros Hmsg.
  - simpl. destruct msg as [| |sysMsg|]; try discriminate. simpl in Hmsg.
    destruct (String.eqb (SystemMessage.Subtype sysMsg) "error"); [|discriminate].
    by rewrite Hmsg.
  - change ((m :: pre) ++ msg :: post) with (m :: (pre ++ msg :: post)).
    rewrite collect_step by assumption. by rewrite IH.
Qed.
End Collect.

Lemma frame_no_error_text (d : MessageData.t) : messageDataToMap d !! "error" = None.
Proof. by frame_lookup. Qed.

Lemma parsed_frame_no_error_text (d : MessageData.t) (msg : Message) :
  ParseMessage (messageDataToMap d) = Ok msg -> error_text msg = None.
Proof.
  unfold ParseMessage.
  destruct (as_string (messageDataToMap d !! "type")) as [ty|]; [|discriminate].
  repeat (destruct (String.eqb ty _); [
    match goal with
    | |- lift _ ?r = _ -> _ => destruct r as [m|] eqn:Hm; [|discriminate]
    end; intros [= <-]; try reflexivity |]); [|discriminate].
  unfold parseSystemMessage in Hm.
  destruct (as_string (messageDataToMap d !! "subtype")); [|discriminate].
  injection Hm as <-. simpl. rewrite frame_no_error_text.
  by destruct (String.eqb _ _).
Qed.

(** No message decoded from the transport is taken for an error report. *)
Lemma forward_parsed_no_error_text (frames : list MessageData.t) :
  Forall (fun msg => error_text msg = None) (forward_parsed frames).
Proof.
  induction frames as [|d frames IH]; simpl; [constructor|].
  destruct (ParseMessage (messageDataToMap d)) as [msg|] eqn:Hd; [|exact IH].
  constructor; [by apply (parsed_frame_no_error_text d)|exact IH].
Qed.

Lemma Connect_ok_connected (os : SubprocessCLITransport.spawn)
    (tr tr' : SubprocessCLITransport.t) (effs : list effect) :
  SubprocessCLITransport.Connect os tr = (tr', effs, None) ->
  SubprocessCLITransport.connected tr' = true.
Proof.
  unfold SubprocessCLITransport.Connect.
  destruct (SubprocessCLITransport.connected tr) eqn:Hc; [by intros [= <- _]|].
  destruct os, (SubprocessCLITransport.isStreaming tr); simpl; intros H;
    try discriminate; by injection H as <- _.
Qed.

(** A frame of type "system" and subtype "error", as the child may write
    it. The frame has no field that could carry an error text into the
    message data. *)
Lemma sample_error_frame :
  Query (Ok "claude") SubprocessCLITransport.Started
    (Sample.frames [Sample.line_error; Sample.line_success])
    (SubprocessCLITransport.PromptString "hello")
  = [Sample.error_report; Sample.success].
Proof. vm_compute. reflexivity. Qed.

(** C8, as stated, fails. The child writes a system message of subtype
    "error" and then its result: [QuerySync] returns both messages and a nil
    error, although the first one is a system message of subtype "error". *)
Lemma QuerySync_error_subtype_not_reported :
  is_error_subtype Sample.error_report = true
  /\ QuerySync (Ok "claude") SubprocessCLITransport.Started
       (Sample.frames [Sample.line_error; Sample.line_success])
       (SubprocessCLITransport.PromptString "hello")
     = ([Sample.error_report; Sample.success], None).
Proof.
  split; [reflexivity|].
  unfold QuerySync. rewrite sample_error_frame. reflexivity.
Qed.

(** C8, amended. [QuerySync] returns the messages of the stream in order. It
    stops at the first system message of subtype "error" whose data holds a
    string under "error": it then returns a [CLIConnectionError] carrying
    that string, together with the messages collected so far, that message
    included. [Query] makes up such a message when the transport cannot be
    created or connected. Any other message, also a system message of subtype
    "error" without such a string, is collected and the loop goes on; no
    message decoded from the child's output holds such a string, so once the
    transport is connected every message is collected and the error is
    nil. *)
Theorem QuerySync_collects
    (findCLI : result string) (os : SubprocessCLITransport.spawn)
    (msgChan : list MessageData.t) (prompt : SubprocessCLITransport.prompt)
    (pre : list Message) :
  Forall (fun msg => error_text msg = None) pre ->
  (Query findCLI os msgChan prompt = pre ->
   QuerySync findCLI os msgChan prompt = (pre, None))
  /\ (forall msg post errStr,
        error_text msg = Some errStr ->
        Query findCLI os msgChan prompt = pre ++ msg :: post ->
        QuerySync findCLI os msgChan prompt
        = (pre ++ [msg], Some (CLIConnectionError errStr)))
  /\ (forall e,
        SubprocessCLITransport.New prompt "" true findCLI = Err e ->
        QuerySync findCLI os msgChan prompt
        = ([error_message e], Some (CLIConnectionError (Error e))))
  /\ (forall tr tr' effs e,
        SubprocessCLITransport.New prompt "" true findCLI = Ok tr ->
        SubprocessCLITransport.Connect os tr = (tr', effs, Some e) ->
        QuerySync findCLI os msgChan prompt
        = ([error_message e], Some (CLIConnectionError (Error e))))
  /\ (forall tr tr' effs,
        SubprocessCLITransport.New prompt "" true findCLI = Ok tr ->
        SubprocessCLITransport.Connect os tr = (tr', effs, None) ->
        QuerySync findCLI os msgChan prompt = (forward_parsed msgChan, None)).
Proof.
  intros Hpre. unfold QuerySync. repeat split.
  - intros ->. by apply collect_all.
  - intros msg post errStr Hmsg ->. by apply collect_stops.
  - intros e He. unfold Query. rewrite He. reflexivity.
  - intros tr tr' effs e Hnew Hconn. unfold Query. rewrite Hnew, Hconn. reflexivity.
  - intros tr tr' effs Hnew Hconn. unfold Query. rewrite Hnew, Hconn.
    unfold SubprocessCLITransport.ReceiveMessages.
    rewrite (Connect_ok_connected _ _ _ _ Hconn). simpl.
    apply collect_all, forward_parsed_no_error_text.
Qed.

(** A stream that ends with its result, and a query whose executable is not
    found. *)
Lemma QuerySync_collects_sample :
  QuerySync (Ok "claude") SubprocessCLITransport.Started
    (Sample.frames [Sample.line_info; Sample.line_hi; Sample.line_success])
    (SubprocessCLITransport.PromptString "hello")
  = ([Sample.info; Sample.hi; Sample.success], None)
  /\ QuerySync (Err (Errorf "Claude Code not found")) SubprocessCLITransport.Started []
       (SubprocessCLITransport.PromptString "hello")
     = ([] ++ [error_message (Errorf "Claude Code not found")],
        Some (CLIConnectionError "Claude Code not found")).
Proof.
  split.
  - apply (proj1 (QuerySync_collects (Ok "claude") SubprocessCLITransport.Started
                    (Sample.frames [Sample.line_info; Sample.line_hi; Sample.line_success])
                    (SubprocessCLITransport.PromptString "hello")
                    [Sample.info; Sample.hi; Sample.success]
                    ltac:(repeat constructor))).
    vm_compute. reflexivity.
  - apply (proj1 (proj2 (QuerySync_collects (Err (Errorf "Claude Code not found"))
                    SubprocessCLITransport.Started []
                    (SubprocessCLITransport.PromptString "hello") []
                    ltac:(constructor)))
             (error_message (Errorf "Claude Code not found")) []
             "Claude Code not found"); reflexivity.
Defined.

(** ** Frames that the parser refuses *)

Section BadFrames.
Implicit Types (data blockData : gmap string value) (k ty : string).






End BadFrames.

Section WireFrames.
Implicit Types (ms : list (string * json.t)) (d : MessageData.t) (tag : string).

Lemma field_unselected {A} (assign : A -> json.t -> option A) tag ms (cur : A) :
  json.member tag (json.Obj ms) = false -> json.field assign tag ms cur = Some cur.
Proof.
  induction ms as [|[k x] ms IH]; simpl; [reflexivity|].
  intros H. apply orb_false_elim in H as [Hk Hms]. simpl in Hk. rewrite Hk. by apply IH.
Qed.

(** A member that the object lacks leaves the field of the frame at its zero
    value. *)
Lemma missing_member_zero ms d :
  json.to_MessageData (json.Obj ms) = Some d ->
  (json.member "message" (json.Obj ms) = false -> MessageData.Message d = None)
  /\ (json.member "subtype" (json.Obj ms) = false -> MessageData.Subtype d = "")
  /\ (json.member "session_id" (json.Obj ms) = false -> MessageData.SessionID d = "")
  /\ (json.member "duration_ms" (json.Obj ms) = false -> MessageData.DurationMS d = 0)
  /\ (json.member "duration_api_ms" (json.Obj ms) = false -> MessageData.DurationAPIMS d = 0)
  /\ (json.member "num_turns" (json.Obj ms) = false -> MessageData.NumTurns d = 0)
  /\ (json.member "is_error" (json.Obj ms) = false -> MessageData.IsError d = false).
Proof.
  intros H. unfold json.to_MessageData in H.
  repeat match type of H with
         | context [json.field ?a ?t ms ?c] =>
             let E := fresh "E" in
             destruct (json.field a t ms c) eqn:E; simpl in H; [|discriminate]
         end.
  injection H as <-. simpl.
  repeat split; intros Hm;
    match goal with
    | E : json.field ?a ?t ms ?c = Some ?v |- ?v = _ =>
        rewrite (field_unselected a t ms c Hm) in E; by injection E
    end.
Qed.

(** A frame unmarshalled from an object that lacks a member required of its
    type, other than is_error, has a map that misses the field. *)
Lemma missing_member_bad ms d tag :
  json.to_MessageData (json.Obj ms) = Some d ->
  tag ∈ required_fields (MessageData.Type_ d) ->
  tag <> "is_error" ->
  json.member tag (json.Obj ms) = false ->
  bad_envelope (messageDataToMap d).
Proof.
  intros Hd Htag Hne Hm.
  destruct (missing_member_zero ms d Hd) as (Hmsg & Hsub & Hsid & Hdur & Hapi & Hturns & _).
  apply (bad_field _ (MessageData.Type_ d) tag); [apply frame_type|assumption|].
  unfold required_fields in Htag.
  repeat (destruct (String.eqb (MessageData.Type_ d) _); [
    repeat (apply elem_of_cons in Htag as [->|Htag]); [..|by apply elem_of_nil in Htag];
    try congruence;
    rewrite ?frame_message, ?frame_subtype, ?frame_session_id, ?frame_duration_ms,
      ?frame_duration_api_ms, ?frame_num_turns;
    rewrite ?(Hmsg Hm), ?(Hsub Hm), ?(Hsid Hm), ?(Hdur Hm), ?(Hapi Hm), ?(Hturns Hm);
    reflexivity |]).
  by apply elem_of_nil in Htag.
Qed.
End WireFrames.




(** ** The reader of the child's output *)

Section Noise.
Implicit Types (s : string) (l : list ascii).

Lemma length_string_of_list_ascii l :
  String.length (string_of_list_ascii l) = length l.
Proof. induction l as [|c l IH]; simpl; [reflexivity|by rewrite IH]. Qed.

Lemma len_append s1 s2 : len (s1 +:+ s2) = len s1 + len s2.
Proof.
  unfold len. induction s1 as [|c s1 IH]; simpl; [reflexivity|].
  rewrite !Nat2Z.inj_succ. lia.
Qed.

Lemma trim_left_stuck fuel runes l :
  drop_space runes l = None -> trim_left fuel runes l = l.
Proof. intros H. destruct fuel; simpl; [reflexivity|by rewrite H]. Qed.

(** A string that neither starts nor ends with white space is left as it
    is. *)
Lemma TrimSpace_id s :
  drop_space space_runes (list_ascii_of_string s) = None ->
  drop_space (map reverse space_runes) (reverse (list_ascii_of_string s)) = None ->
  TrimSpace s = s.
Proof.
  intros Hl Hr. unfold TrimSpace. cbv zeta.
  rewrite (trim_left_stuck _ _ _ Hl), (trim_left_stuck _ _ _ Hr).
  by rewrite reverse_involutive, string_of_list_ascii_of_string.
Qed.

Lemma parse_not_json s : json.parse (String "x" s) = None.
Proof.
  unfold json.parse.
  replace (2 * String.length (String "x" s) + 2)%nat
    with (S (2 * String.length (String "x" s) + 1)) by lia.
  reflexivity.
Qed.

Lemma noise_cons (n : positive) : exists s, Sample.noise_of n = String "x" s.
Proof.
  unfold Sample.noise_of. destruct (Pos2Nat.is_succ n) as [m ->]. simpl. by eexists.
Qed.

Lemma len_noise (n : positive) : len (Sample.noise_of n) = Z.pos n.
Proof.
  unfold len, Sample.noise_of.
  rewrite length_string_of_list_ascii, length_replicate. apply positive_nat_Z.
Qed.

Lemma TrimSpace_noise (n : positive) : TrimSpace (Sample.noise_of n) = Sample.noise_of n.
Proof.
  unfold Sample.noise_of. apply TrimSpace_id;
    rewrite list_ascii_of_string_of_list_ascii, ?reverse_replicate;
    destruct (Pos2Nat.is_succ n) as [m ->]; reflexivity.
Qed.

Lemma noise_not_empty (n : positive) : String.eqb (Sample.noise_of n) "" = false.
Proof. destruct (noise_cons n) as [s ->]. reflexivity. Qed.

Lemma Unmarshal_noise (n : positive) :
  json.Unmarshal_MessageData (Sample.noise_of n) = None.
Proof.
  destruct (noise_cons n) as [s ->]. unfold json.Unmarshal_MessageData.
  by rewrite parse_not_json.
Qed.
End Noise.

Section Reader.
Variable Unmarshal : string -> option MessageData.t.
Implicit Types (st : SubprocessCLITransport.reader) (text line buffer : string).
Implicit Types (msgs : list MessageData.t) (errs : list error).

Abbreviation running := SubprocessCLITransport.running.
Abbreviation overflow := SubprocessCLITransport.overflow.

Lemma read_lines_cons buffer msgs errs text rest :
  SubprocessCLITransport.read_lines Unmarshal (running buffer msgs errs) (text :: rest)
  = SubprocessCLITransport.read_lines Unmarshal
      (SubprocessCLITransport.read_line Unmarshal (running buffer msgs errs) text) rest.
Proof. reflexivity. Qed.

Lemma read_lines_blocked st lines :
  SubprocessCLITransport.blocked st = true ->
  SubprocessCLITransport.read_lines Unmarshal st lines = st.
Proof. intros H. destruct lines; simpl; [reflexivity|by rewrite H]. Qed.

(** A line that leaves the buffer within the limit and does not complete a
    JSON value is kept in the buffer. *)
Lemma read_line_accumulates buffer msgs errs text :
  String.eqb (TrimSpace text) "" = false ->
  len (buffer +:+ TrimSpace text) <= maxBufferSize ->
  Unmarshal (buffer +:+ TrimSpace text) = None ->
  SubprocessCLITransport.read_line Unmarshal (running buffer msgs errs) text
  = running (buffer +:+ TrimSpace text) msgs errs.
Proof.
  intros Hne Hlen Hnone. unfold SubprocessCLITransport.read_line, SubprocessCLITransport.running. simpl.
  rewrite Hne. destruct (Z.ltb_spec maxBufferSize (len (buffer +:+ TrimSpace text))); [lia|].
  by rewrite Hnone.
Qed.

(** A line that completes a JSON value within the limit: the frame is sent
    and the buffer is emptied. *)
Lemma read_line_decodes buffer msgs errs text data :
  String.eqb (TrimSpace text) "" = false ->
  len (buffer +:+ TrimSpace text) <= maxBufferSize ->
  Unmarshal (buffer +:+ TrimSpace text) = Some data ->
  String.eqb (MessageData.Type_ data) "control_response" = false ->
  SubprocessCLITransport.read_line Unmarshal (running buffer msgs errs) text
  = running "" (msgs ++ [data]) errs.
Proof.
  intros Hne Hlen Hsome Hty. unfold SubprocessCLITransport.read_line, SubprocessCLITransport.running. simpl.
  rewrite Hne. destruct (Z.ltb_spec maxBufferSize (len (buffer +:+ TrimSpace text))); [lia|].
  by rewrite Hsome, Hty.
Qed.

(** The buffer passes the limit while the error channel is empty: one error
    is sent on it and the buffer is emptied. *)
Lemma read_line_overflow buffer msgs text :
  String.eqb (TrimSpace text) "" = false ->
  maxBufferSize < len (buffer +:+ TrimSpace text) ->
  SubprocessCLITransport.read_line Unmarshal (running buffer msgs []) text
  = running "" msgs [overflow].
Proof.
  intros Hne Hlen. unfold SubprocessCLITransport.read_line, SubprocessCLITransport.running. simpl.
  rewrite Hne. destruct (Z.ltb_spec maxBufferSize (len (buffer +:+ TrimSpace text))); [|lia].
  reflexivity.
Qed.

(** The buffer passes the limit while the error channel holds an error: the
    send never returns, and the goroutine stays where it is. *)
Lemma read_line_overflow_blocks buffer msgs e text :
  String.eqb (TrimSpace text) "" = false ->
  maxBufferSize < len (buffer +:+ TrimSpace text) ->
  SubprocessCLITransport.read_line Unmarshal (running buffer msgs [e]) text
  = {| SubprocessCLITransport.jsonBuffer := buffer +:+ TrimSpace text;
       SubprocessCLITransport.msgChan := msgs;
       SubprocessCLITransport.errChan := [e];
       SubprocessCLITransport.blocked := true |}.
Proof.
  intros Hne Hlen. unfold SubprocessCLITransport.read_line, SubprocessCLITransport.running. simpl.
  rewrite Hne. destruct (Z.ltb_spec maxBufferSize (len (buffer +:+ TrimSpace text))); [|lia].
  reflexivity.
Qed.

Section Junk.
Variables (junk good : string) (data : MessageData.t).
Hypothesis junk_trimmed : TrimSpace junk = junk.
Hypothesis junk_not_empty : String.eqb junk "" = false.
Hypothesis junk_fits : len junk <= maxBufferSize.
Hypothesis junk_twice : maxBufferSize < len (junk +:+ junk).
Hypothesis junk_not_json : Unmarshal junk = None.
Hypothesis good_trimmed : TrimSpace good = good.
Hypothesis good_not_empty : String.eqb good "" = false.
Hypothesis good_fits : len good <= maxBufferSize.
Hypothesis good_json : Unmarshal good = Some data.
Hypothesis good_type : String.eqb (MessageData.Type_ data) "control_response" = false.

Lemma read_junk msgs errs :
  SubprocessCLITransport.read_line Unmarshal (running "" msgs errs) junk
  = running junk msgs errs.
Proof.
  rewrite read_line_accumulates; rewrite junk_trimmed; [reflexivity|assumption..].
Qed.

Lemma read_good msgs errs :
  SubprocessCLITransport.read_line Unmarshal (running "" msgs errs) good
  = running "" (msgs ++ [data]) errs.
Proof.
  apply read_line_decodes; rewrite ?good_trimmed; assumption.
Qed.

(** The first time the buffer overflows: one error, an empty buffer, and
    the line that follows is decoded. *)
Lemma first_overflow_recovers :
  SubprocessCLITransport.read_lines Unmarshal SubprocessCLITransport.reader0
    [junk; junk; good]
  = running "" [data] [overflow].
Proof.
  unfold SubprocessCLITransport.reader0.
  rewrite read_lines_cons, read_junk.
  rewrite read_lines_cons, read_line_overflow by (rewrite junk_trimmed; assumption).
  rewrite read_lines_cons, read_good. reflexivity.
Qed.

(** The second time the buffer overflows: the reader is stuck in the send
    on the error channel, and the line that follows is never read. *)
Lemma second_overflow_blocks :
  SubprocessCLITransport.read_lines Unmarshal SubprocessCLITransport.reader0
    [junk; junk; junk; junk; good]
  = {| SubprocessCLITransport.jsonBuffer := junk +:+ junk;
       SubprocessCLITransport.msgChan := [];
       SubprocessCLITransport.errChan := [overflow];
       SubprocessCLITransport.blocked := true |}.
Proof.
  unfold SubprocessCLITransport.reader0.
  rewrite read_lines_cons, read_junk.
  rewrite read_lines_cons, read_line_overflow by (rewrite junk_trimmed; assumption).
  rewrite read_lines_cons, read_junk.
  rewrite read_lines_cons, read_line_overflow_blocks by (rewrite junk_trimmed; assumption).
  rewrite junk_trimmed. by rewrite read_lines_blocked.
Qed.
End Junk.
End Reader.

(** C3 at a failing input. The child writes four lines of 600000 bytes that
    are not JSON, then the canned result line. The second line takes the
    buffer over the limit: an error is sent on the error channel, which has
    room for one and which nothing reads, and the buffer is emptied. The
    fourth line takes the buffer over the limit again: the send on the full
    error channel never returns, no second error is reported, the buffer is
    not emptied, and the result line that follows is never decoded. After
    the first overflow alone the result line is decoded. *)
Theorem second_overflow_blocks_reader :
  SubprocessCLITransport.readMessages json.Unmarshal_MessageData
    [Sample.noise; Sample.noise; Sample.noise; Sample.noise; Sample.line_success]
    None None ""
  = {| SubprocessCLITransport.jsonBuffer := Sample.noise +:+ Sample.noise;
       SubprocessCLITransport.msgChan := [];
       SubprocessCLITransport.errChan := [Errorf "JSON message exceeded maximum buffer size"];
       SubprocessCLITransport.blocked := true |}
  /\ SubprocessCLITransport.readMessages json.Unmarshal_MessageData
       [Sample.noise; Sample.noise; Sample.line_success] None None ""
     = {| SubprocessCLITransport.jsonBuffer := "";
          SubprocessCLITransport.msgChan := [Sample.frame_success];
          SubprocessCLITransport.errChan :=
            [Errorf "JSON message exceeded maximum buffer size"];
          SubprocessCLITransport.blocked := false |}.
Proof.
  assert (Hfits : len Sample.noise <= maxBufferSize).
  { unfold Sample.noise. rewrite len_noise. vm_compute. discriminate. }
  assert (Htwice : maxBufferSize < len (Sample.noise +:+ Sample.noise)).
  { unfold Sample.noise. rewrite len_append, len_noise. reflexivity. }
  assert (Hgood : TrimSpace Sample.line_success = Sample.line_success)
    by (vm_compute; reflexivity).
  assert (Hne : String.eqb Sample.line_success "" = false) by reflexivity.
  assert (Hgfits : len Sample.line_success <= maxBufferSize) by (vm_compute; discriminate).
  assert (Hjson : json.Unmarshal_MessageData Sample.line_success = Some Sample.frame_success)
    by (vm_compute; reflexivity).
  assert (Hty : String.eqb (MessageData.Type_ Sample.frame_success) "control_response" = false)
    by reflexivity.
  unfold SubprocessCLITransport.readMessages. split.
  - pose proof (second_overflow_blocks json.Unmarshal_MessageData Sample.noise
                  Sample.line_success (TrimSpace_noise _) (noise_not_empty _) Hfits Htwice
                  (Unmarshal_noise _)) as Hrun.
    rewrite Hrun. reflexivity.
  - pose proof (first_overflow_recovers json.Unmarshal_MessageData Sample.noise
                  Sample.line_success Sample.frame_success (TrimSpace_noise _)
                  (noise_not_empty _) Hfits Htwice (Unmarshal_noise _) Hgood Hne Hgfits
                  Hjson Hty) as Hrun.
    rewrite Hrun. reflexivity.
Qed.

(** * Further properties of the code *)

(** ** parser.go *)

(** X1. The loop over a content array succeeds exactly when every element is
    a valid content block, and then yields the blocks of the elements, one for
    one and in the order of the array. *)
Theorem parseContentBlocks_all (items : list value) (blocks : list ContentBlock) :
  parseContentBlocks items = Ok blocks
  <-> Forall2 (fun item block => parseContentBlock item = Ok block) items blocks.
Proof.
  revert blocks. induction items as [|item items IH]; intros blocks; simpl.
  - split.
    + intros [= <-]. constructor.
    + intros H. by inversion H.
  - destruct (parseContentBlock item) as [block|e] eqn:Hitem.
    + destruct (parseContentBlocks items) as [blocks'|e] eqn:Hrest.
      * split.
        -- intros [= <-]. constructor; [assumption|]. by apply IH.
        -- intros H. inversion H as [|? b ? bs Hb Hbs]; subst.
           rewrite Hitem in Hb. injection Hb as <-.
           apply IH in Hbs. by injection Hbs as <-.
      * split; [discriminate|].
        intros H. inversion H as [|? b ? bs Hb Hbs]; subst.
        apply IH in Hbs. discriminate.
    + split; [discriminate|].
      intros H. inversion H as [|? b ? bs Hb Hbs]; subst. rewrite Hitem in Hb. discriminate.
Qed.

Lemma frame_parent (d : MessageData.t) :
  messageDataToMap d !! "parent_tool_use_id" = VString <$> MessageData.ParentToolUseID d.
Proof. frame_lookup. by destruct (MessageData.ParentToolUseID d). Qed.

Lemma frame_content (d : MessageData.t) :
  messageDataToMap d !! "content"
  = if is_nil (MessageData.Content d) then None else Some (MessageData.Content d).
Proof. frame_lookup. by destruct (is_nil (MessageData.Content d)). Qed.

Lemma frame_model (d : MessageData.t) :
  messageDataToMap d !! "model"
  = if nonempty (MessageData.Model d) then Some (VString (MessageData.Model d)) else None.
Proof. by frame_lookup. Qed.

Lemma frame_data (d : MessageData.t) :
  messageDataToMap d !! "data" = VMap <$> MessageData.Data d.
Proof. frame_lookup. by destruct (MessageData.Data d). Qed.

(** X2. A frame of type "assistant" is decoded to an assistant message with
    a given model and given blocks exactly when its "message" object holds
    that model as a string and a content array whose elements parse to those
    blocks, in order; nothing else in the frame matters. An empty content
    array is accepted. *)
Theorem assistant_frame_decodes (d : MessageData.t) (model : string)
    (blocks : list ContentBlock) :
  MessageData.Type_ d = "assistant" ->
  ParseMessage (messageDataToMap d)
  = Ok (Assistant {| AssistantMessage.Content := blocks; AssistantMessage.Model := model |})
  <-> exists messageData items,
        MessageData.Message d = Some messageData
        /\ messageData !! "model" = Some (VString model)
        /\ messageData !! "content" = Some (VSlice items)
        /\ Forall2 (fun item block => parseContentBlock item = Ok block) items blocks.
Proof.
  intros Hty. unfold ParseMessage. rewrite frame_type, Hty. simpl.
  unfold parseAssistantMessage. rewrite frame_message. split.
  - destruct (MessageData.Message d) as [messageData|]; [|discriminate]. simpl.
    destruct (messageData !! "model") as [[| | | |m| |]|] eqn:Hm; try discriminate. simpl.
    destruct (messageData !! "content") as [[| | | | |items|]|] eqn:Hc; try discriminate.
    simpl. destruct (parseContentBlocks items) as [bs|] eqn:Hb; [|discriminate].
    intros [= <- <-]. exists messageData, items. repeat split; try assumption.
    by apply parseContentBlocks_all.
  - intros (messageData & items & -> & Hm & Hc & Hb). simpl. rewrite Hm, Hc. simpl.
    apply parseContentBlocks_all in Hb. by rewrite Hb.
Qed.

Lemma assistant_frame_decodes_sample :
  ParseMessage (messageDataToMap
     {| MessageData.Type_ := "assistant";
        MessageData.Message :=
          Some (<["model" := VString "m1"]> (<["content" := VSlice []]> ∅));
        MessageData.ParentToolUseID := None; MessageData.SessionID := "s1";
        MessageData.Content := VNil; MessageData.Model := "";
        MessageData.Subtype := ""; MessageData.Data := None;
        MessageData.DurationMS := 0; MessageData.DurationAPIMS := 0;
        MessageData.IsError := false; MessageData.NumTurns := 0;
        MessageData.TotalCostUSD := None; MessageData.Usage := None;
        MessageData.Result := None |})
  = Ok (Assistant {| AssistantMessage.Content := []; AssistantMessage.Model := "m1" |}).
Proof.
  apply assistant_frame_decodes; [reflexivity|].
  exists (<["model" := VString "m1"]> (<["content" := VSlice []]> ∅)), [].
  repeat split. constructor.
Defined.

Lemma ParseMessage_kind (data : gmap string value) (msg : Message) :
  ParseMessage data = Ok msg -> data !! "type" = Some (VString (kind msg)).
Proof.
  unfold ParseMessage.
  destruct (data !! "type") as [[| | | |ty| |]|] eqn:Hty; try discriminate. simpl.
  destruct (String.eqb_spec ty "user") as [->|_].
  { destruct (parseUserMessage data); [|discriminate]. by intros [= <-]. }
  destruct (String.eqb_spec ty "assistant") as [->|_].
  { destruct (parseAssistantMessage data); [|discriminate]. by intros [= <-]. }
  destruct (String.eqb_spec ty "system") as [->|_].
  { destruct (parseSystemMessage data); [|discriminate]. by intros [= <-]. }
  destruct (String.eqb_spec ty "result") as [->|_]; [|discriminate].
  destruct (parseResultMessage data); [|discriminate]. by intros [= <-].
Qed.

(** X3. Every message that the receive loop delivers was decoded from one
    of the frames, and its variant is the one that the type of that frame
    names: no frame of another type is turned into a message. The loop
    delivers at most one message per frame. *)
Theorem delivered_kind (frames : list MessageData.t) (msg : Message) :
  msg ∈ forward_parsed frames ->
  (exists d, d ∈ frames
             /\ ParseMessage (messageDataToMap d) = Ok msg
             /\ MessageData.Type_ d = kind msg)
  /\ (length (forward_parsed frames) <= length frames)%nat.
Proof.
  intros Hin. split.
  - induction frames as [|d frames IH]; simpl in Hin; [by apply elem_of_nil in Hin|].
    destruct (ParseMessage (messageDataToMap d)) as [m|e] eqn:Hd.
    + apply elem_of_cons in Hin as [->|Hin].
      * exists d. split; [by left|]. split; [assumption|].
        apply ParseMessage_kind in Hd. rewrite frame_type in Hd. by injection Hd.
      * destruct (IH Hin) as (d' & Hd' & Hrest). exists d'. split; [by right|assumption].
    + destruct (IH Hin) as (d' & Hd' & Hrest). exists d'. split; [by right|assumption].
  - clear Hin. induction frames as [|d frames IH]; simpl; [lia|].
    destruct (ParseMessage (messageDataToMap d)); simpl; lia.
Qed.

Lemma delivered_kind_sample :
  (exists d, d ∈ [Sample.frame_mystery; Sample.frame_success]
             /\ ParseMessage (messageDataToMap d) = Ok Sample.success
             /\ MessageData.Type_ d = kind Sample.success)
  /\ (length (forward_parsed [Sample.frame_mystery; Sample.frame_success]) <= 2)%nat.
Proof.
  apply (delivered_kind [Sample.frame_mystery; Sample.frame_success] Sample.success).
  vm_compute. left.
Defined.

(** X4. A frame of type "system" is delivered exactly when its subtype is
    not empty. The data of the delivered message is the whole map of the
    frame, not the "data" member of the line: it holds the type, the subtype,
    an is_error entry even when the line had none, and the "data" object under
    the key "data". *)
Theorem system_frame_decodes (d : MessageData.t) :
  MessageData.Type_ d = "system" ->
  (MessageData.Subtype d <> "" ->
   ParseMessage (messageDataToMap d)
   = Ok (System {| SystemMessage.Subtype := MessageData.Subtype d;
                   SystemMessage.Data := messageDataToMap d |}))
  /\ (MessageData.Subtype d = "" ->
      ParseMessage (messageDataToMap d)
      = Err (Errorf "missing 'subtype' field in system message"))
  /\ messageDataToMap d !! "type" = Some (VString "system")
  /\ messageDataToMap d !! "is_error" = Some (VBool (MessageData.IsError d))
  /\ messageDataToMap d !! "data" = VMap <$> MessageData.Data d.
Proof.
  intros Hty. unfold ParseMessage. rewrite frame_type, Hty. simpl.
  unfold parseSystemMessage. rewrite frame_subtype. unfold nonempty.
  repeat split.
  - intros Hne. by destruct (String.eqb_spec (MessageData.Subtype d) "").
  - intros ->. reflexivity.
  - apply frame_is_error.
  - apply frame_data.
Qed.

Lemma system_frame_decodes_sample :
  ParseMessage (messageDataToMap More.frame_info)
  = Ok (System {| SystemMessage.Subtype := "info";
                  SystemMessage.Data := messageDataToMap More.frame_info |}).
Proof.
  apply (proj1 (system_frame_decodes More.frame_info eq_refl)). discriminate.
Defined.

(** ** client.go: the two conversions *)

Lemma frame_other_key (d : MessageData.t) (k : string) :
  k ∉ frame_keys -> messageDataToMap d !! k = None.
Proof.
  intros Hk. unfold frame_keys in Hk.
  repeat (apply not_elem_of_cons in Hk as [? Hk]).
  unfold messageDataToMap.
  repeat first
    [ rewrite lookup_set_if_ne by congruence
    | rewrite lookup_set_opt_ne by congruence
    | rewrite lookup_insert_ne by congruence ].
  apply lookup_empty.
Qed.

(** X5. The map built from a frame holds no key besides the fifteen tags of
    [MessageData], so a member of a line that the struct does not know never
    reaches the parser; it always holds "type" and "is_error". *)
Theorem frame_map_keys (d : MessageData.t) (k : string) :
  (is_Some (messageDataToMap d !! k) -> k ∈ frame_keys)
  /\ is_Some (messageDataToMap d !! "type")
  /\ is_Some (messageDataToMap d !! "is_error").
Proof.
  repeat split.
  - intros Hsome. destruct (decide (k ∈ frame_keys)) as [|Hk]; [assumption|].
    rewrite (frame_other_key d k Hk) in Hsome. by destruct Hsome.
  - rewrite frame_type. by eexists.
  - rewrite frame_is_error. by eexists.
Qed.

Lemma frame_map_keys_sample : "type" ∈ frame_keys.
Proof.
  apply (proj1 (frame_map_keys Sample.frame_success "type")).
  rewrite frame_type. by eexists.
Defined.

(** X6. Turning a frame into a map and the map back into a frame gives the
    frame again, without a panic, provided its three integer fields are not
    negative; a negative one comes back as 0. *)
Theorem frame_round_trip (d : MessageData.t) :
  (0 <= MessageData.DurationMS d ->
   0 <= MessageData.DurationAPIMS d ->
   0 <= MessageData.NumTurns d ->
   mapToMessageData (messageDataToMap d) = Returns d)
  /\ (forall d', mapToMessageData (messageDataToMap d) = Returns d' ->
        MessageData.DurationMS d' = Z.max 0 (MessageData.DurationMS d))
  /\ mapToMessageData (messageDataToMap d) <> Panics.
Proof.
  assert (Hgen : mapToMessageData (messageDataToMap d)
    = Returns {| MessageData.Type_ := MessageData.Type_ d;
                 MessageData.Message := MessageData.Message d;
                 MessageData.ParentToolUseID := MessageData.ParentToolUseID d;
                 MessageData.SessionID := MessageData.SessionID d;
                 MessageData.Content := MessageData.Content d;
                 MessageData.Model := MessageData.Model d;
                 MessageData.Subtype := MessageData.Subtype d;
                 MessageData.Data := MessageData.Data d;
                 MessageData.DurationMS := Z.max 0 (MessageData.DurationMS d);
                 MessageData.DurationAPIMS := Z.max 0 (MessageData.DurationAPIMS d);
                 MessageData.IsError := MessageData.IsError d;
                 MessageData.NumTurns := Z.max 0 (MessageData.NumTurns d);
                 MessageData.TotalCostUSD := MessageData.TotalCostUSD d;
                 MessageData.Usage := MessageData.Usage d;
                 MessageData.Result := MessageData.Result d |}).
  { unfold mapToMessageData, index.
    rewrite frame_type, frame_message, frame_parent, frame_session_id, frame_content,
      frame_model, frame_subtype, frame_data, frame_duration_ms, frame_duration_api_ms,
      frame_is_error, frame_num_turns, frame_total_cost_usd, frame_usage, frame_result.
    unfold nonempty.
    destruct d as [ty msg parent sid content model subtype data dur durapi iserr turns
                     cost usage res]; simpl.
    assert (Hstr : forall s, default "" (as_string
               (if negb (String.eqb s "") then Some (VString s) else None)) = s).
    { intros s. by destruct (String.eqb_spec s "") as [->|]. }
    assert (Hint : forall n, match (if 0 <? n then Some (VInt n) else None) with
                             | Some (VInt v) => v | _ => 0 end = Z.max 0 n).
    { intros n. destruct (Z.ltb_spec 0 n); lia. }
    rewrite !Hstr, !Hint.
    assert (Hcontent : match (if is_nil content then None else Some content) with
                       | Some v => v | None => VNil end = content)
      by (by destruct content).
    rewrite Hcontent.
    destruct msg, parent, data, cost, usage, res; reflexivity. }
  repeat split.
  - intros H1 H2 H3. rewrite Hgen. rewrite !Z.max_r by assumption. by destruct d.
  - intros d'. rewrite Hgen. by intros [= <-].
  - rewrite Hgen. discriminate.
Qed.

Lemma frame_round_trip_sample :
  mapToMessageData (messageDataToMap Sample.frame_success) = Returns Sample.frame_success.
Proof.
  apply (proj1 (frame_round_trip Sample.frame_success)); vm_compute; discriminate.
Defined.

(** ** transport.go and client.go: the life of a connection *)

Lemma New_fresh (p : SubprocessCLITransport.prompt) (cliPath : string) (closeStdin : bool)
    (findCLI : result string) (tr : SubprocessCLITransport.t) :
  SubprocessCLITransport.New p cliPath closeStdin findCLI = Ok tr ->
  SubprocessCLITransport.closeStdinAfterPrompt tr = closeStdin
  /\ SubprocessCLITransport.cmd tr = None
  /\ SubprocessCLITransport.stdin tr = false
  /\ SubprocessCLITransport.stderrFile tr = false
  /\ SubprocessCLITransport.connected tr = false
  /\ SubprocessCLITransport.isStreaming tr
     = match p with SubprocessCLITransport.PromptString _ => false | _ => true end.
Proof.
  unfold SubprocessCLITransport.New.
  destruct p; try discriminate;
    destruct (String.eqb cliPath ""); try destruct findCLI; try discriminate;
    by intros [= <-].
Qed.

(** X7. A transport that was connected with success gives back, on
    [Disconnect], everything that [Connect] took: stdin is closed when the
    transport streams, the process is killed and waited for, the stderr file
    is closed and removed, in that order, and the transport is left without
    pipe, file or connection. *)
Theorem Disconnect_releases (p : SubprocessCLITransport.prompt) (cliPath : string)
    (closeStdin : bool) (findCLI : result string) (os : SubprocessCLITransport.spawn)
    (tr tr1 : SubprocessCLITransport.t) (effs : list effect) :
  SubprocessCLITransport.New p cliPath closeStdin findCLI = Ok tr ->
  SubprocessCLITransport.Connect os tr = (tr1, effs, None) ->
  effs = [CreateStderrFile; StartProcess]
  /\ (SubprocessCLITransport.Disconnect tr1).1.2
     = (if SubprocessCLITransport.isStreaming tr then [CloseStdin] else [])
       ++ [KillProcess; WaitProcess; CloseStderrFile; RemoveStderrFile]
  /\ (SubprocessCLITransport.Disconnect tr1).2 = None
  /\ SubprocessCLITransport.stdin (SubprocessCLITransport.Disconnect tr1).1.1 = false
  /\ SubprocessCLITransport.stderrFile (SubprocessCLITransport.Disconnect tr1).1.1 = false
  /\ SubprocessCLITransport.connected (SubprocessCLITransport.Disconnect tr1).1.1 = false.
Proof.
  intros Hnew Hconn. destruct (New_fresh _ _ _ _ _ Hnew) as (_ & Hcmd & Hin & Herr & Hoff & _).
  destruct tr as [streaming closes cmd stdin stderr conn]. simpl in *. subst.
  unfold SubprocessCLITransport.Connect in Hconn. simpl in Hconn.
  destruct os, streaming; simpl in Hconn;
    try discriminate; injection Hconn as <- <-; repeat split.
Qed.

Lemma Disconnect_releases_sample :
  (SubprocessCLITransport.Disconnect Sample.streaming_transport).1.2
  = [CloseStdin] ++ [KillProcess; WaitProcess; CloseStderrFile; RemoveStderrFile].
Proof.
  refine (proj1 (proj2 (Disconnect_releases (SubprocessCLITransport.PromptChan []) "claude"
            false (Ok "claude") SubprocessCLITransport.Started More.fresh_streaming
            Sample.streaming_transport _ _ _))); reflexivity.
Defined.

(** X8. When [Connect] fails after the stderr file was created (the stdin
    pipe, the stdout pipe or the start of the process fails), the transport
    keeps the file but is not connected, so [Disconnect] returns at once and
    the file is neither closed nor removed. *)
Theorem failed_Connect_keeps_stderr_file (p : SubprocessCLITransport.prompt)
    (cliPath : string) (closeStdin : bool) (findCLI : result string)
    (os : SubprocessCLITransport.spawn) (tr tr1 : SubprocessCLITransport.t)
    (effs : list effect) (e : error) :
  SubprocessCLITransport.New p cliPath closeStdin findCLI = Ok tr ->
  SubprocessCLITransport.Connect os tr = (tr1, effs, Some e) ->
  os <> SubprocessCLITransport.TempFileFails ->
  effs = [CreateStderrFile]
  /\ SubprocessCLITransport.stderrFile tr1 = true
  /\ SubprocessCLITransport.connected tr1 = false
  /\ SubprocessCLITransport.Disconnect tr1 = (tr1, [], None).
Proof.
  intros Hnew Hconn Hos.
  destruct (New_fresh _ _ _ _ _ Hnew) as (_ & Hcmd & Hin & Herr & Hoff & _).
  destruct tr as [streaming closes cmd stdin stderr conn]. simpl in *. subst.
  unfold SubprocessCLITransport.Connect in Hconn. simpl in Hconn.
  destruct os, streaming; simpl in Hconn;
    try discriminate; try congruence; injection Hconn as <- <- _; repeat split.
Qed.

Lemma failed_Connect_keeps_stderr_file_sample :
  SubprocessCLITransport.Disconnect
    (SubprocessCLITransport.Connect SubprocessCLITransport.StartFails More.fresh).1.1
  = ((SubprocessCLITransport.Connect SubprocessCLITransport.StartFails More.fresh).1.1,
     [], None).
Proof.
  refine (proj2 (proj2 (proj2 (failed_Connect_keeps_stderr_file
            (SubprocessCLITransport.PromptString "hello") "claude" true (Ok "claude")
            SubprocessCLITransport.StartFails More.fresh _ [CreateStderrFile]
            (Errorf "failed to start Claude Code") _ _ _)))); try reflexivity.
  discriminate.
Defined.

Section Sessions.
Implicit Types (c : Client.t) (ops : list client_op).

Lemma Connect_started (os : SubprocessCLITransport.spawn) (tr tr1 : SubprocessCLITransport.t)
    (effs : list effect) :
  SubprocessCLITransport.connected tr = false ->
  SubprocessCLITransport.Connect os tr = (tr1, effs, None) ->
  SubprocessCLITransport.connected tr1 = true
  /\ SubprocessCLITransport.cmd tr1 = Some true
  /\ SubprocessCLITransport.stderrFile tr1 = true.
Proof.
  intros Hoff. unfold SubprocessCLITransport.Connect. rewrite Hoff.
  destruct os, (SubprocessCLITransport.isStreaming tr); simpl; intros H;
    try discriminate; by injection H as <- _.
Qed.

Lemma apply_op_ok c op : client_ok c -> client_ok (apply_op c op).
Proof.
  unfold client_ok. intros Hc. destruct op as [findCLI os prompt|]; simpl.
  - unfold Client.Connect. destruct (Client.connected c) eqn:Hconn; [simpl; by rewrite Hconn|].
    match goal with |- context [SubprocessCLITransport.New ?p ?cli ?cl ?f] =>
      destruct (SubprocessCLITransport.New p cli cl f) as [tr|e] eqn:Hnew end;
      [|simpl; intros H; congruence].
    destruct (New_fresh _ _ _ _ _ Hnew) as (_ & _ & _ & _ & Hoff & _).
    destruct (SubprocessCLITransport.Connect os tr) as [[tr1 effs] [e|]] eqn:Hc1; simpl.
    + intros H. congruence.
    + intros _. exists tr1. split; [reflexivity|].
      by apply (Connect_started os tr tr1 effs).
  - unfold Client.Disconnect. destruct (Client.transport c) as [tr|] eqn:Htr.
    + destruct (SubprocessCLITransport.Disconnect tr) as [[tr1 effs] err]. simpl.
      intros H. discriminate.
    + simpl. intros H. destruct (Hc H) as (tr & Hbad & _). discriminate.
Qed.

Lemma session_client_ok ops : client_ok (session ops).
Proof.
  unfold session. assert (H0 : client_ok Client.New) by (intros H; discriminate).
  revert H0. generalize Client.New. induction ops as [|op ops IH]; intros c Hc; simpl.
  - assumption.
  - apply IH. by apply apply_op_ok.
Qed.

Lemma session_snoc ops op : session (ops ++ [op]) = apply_op (session ops) op.
Proof. unfold session. by rewrite foldl_app. Qed.
End Sessions.

(** X9. Whatever calls of [Connect] and [Disconnect] were made on a new
    client, and whatever the environment answered, a connected client holds a
    connected transport. So [Interrupt] and [ReceiveMessages] never call a
    method of a nil transport, [ReceiveMessages] on a connected client gives
    the decoded frames, and [Query] panics only when the conversion of the
    prompt does. *)
Theorem session_never_nil_transport (ops : list client_op) :
  client_ok (session ops)
  /\ Client.Interrupt (session ops) <> Panics
  /\ (forall frames, Client.ReceiveMessages (session ops) frames <> Panics)
  /\ (forall frames,
        Client.connected (session ops) = true ->
        Client.ReceiveMessages (session ops) frames = Returns (Ok (forward_parsed frames)))
  /\ (forall write prompt sessionID,
        (Client.Query write (session ops) prompt sessionID).2 = Panics ->
        Client.prompt_messages prompt (Client.session_or_default sessionID) = inl Panics).
Proof.
  pose proof (session_client_ok ops) as Hok. split; [assumption|].
  unfold client_ok in Hok. repeat split.
  - unfold Client.Interrupt. destruct (Client.connected (session ops)); [|discriminate].
    destruct Hok as (tr & -> & _); [reflexivity|]. discriminate.
  - intros frames. unfold Client.ReceiveMessages.
    destruct (Client.connected (session ops)); [|discriminate].
    destruct Hok as (tr & -> & Hconn & _); [reflexivity|]. simpl.
    unfold SubprocessCLITransport.ReceiveMessages. rewrite Hconn. discriminate.
  - intros frames Hc. destruct (Hok Hc) as (tr & Htr & Hconn & _).
    by apply (ReceiveMessages_connected _ tr).
  - intros write prompt sessionID. unfold Client.Query.
    destruct (Client.connected (session ops)); [|discriminate]. simpl.
    destruct Hok as (tr & -> & _); [reflexivity|].
    destruct (Client.prompt_messages prompt (Client.session_or_default sessionID))
      as [[[|msg msgs]|]|e]; simpl; try discriminate; try reflexivity.
    destruct (SubprocessCLITransport.SendRequest write tr (msg :: msgs) _). discriminate.
Qed.

Lemma session_never_nil_transport_sample :
  Client.ReceiveMessages
    (session [DoConnect (Ok "claude") SubprocessCLITransport.Started
                SubprocessCLITransport.PromptNil])
    [Sample.frame_success]
  = Returns (Ok (forward_parsed [Sample.frame_success])).
Proof.
  apply (proj1 (proj2 (proj2 (proj2 (session_never_nil_transport
           [DoConnect (Ok "claude") SubprocessCLITransport.Started
              SubprocessCLITransport.PromptNil]))))).
  reflexivity.
Defined.

(** X10. After [Disconnect], whatever happened before, the client is not
    connected and holds no transport: [Query], [Interrupt] and
    [ReceiveMessages] all return the "Not connected" [CLIConnectionError], and
    [Query] writes nothing. *)
Theorem after_Disconnect_not_connected (ops : list client_op) :
  let c := session (ops ++ [DoDisconnect]) in
  Client.connected c = false
  /\ Client.transport c = None
  /\ (forall write prompt sessionID,
        Client.Query write c prompt sessionID = ([], Returns (Some Client.not_connected)))
  /\ Client.Interrupt c = Returns (Some Client.not_connected)
  /\ (forall frames, Client.ReceiveMessages c frames = Returns (Err Client.not_connected)).
Proof.
  intros c. subst c. rewrite session_snoc. simpl.
  pose proof (session_client_ok ops) as Hok. unfold client_ok in Hok.
  assert (Hoff : Client.connected (Client.Disconnect (session ops)).1.1 = false
                 /\ Client.transport (Client.Disconnect (session ops)).1.1 = None).
  { unfold Client.Disconnect. destruct (Client.transport (session ops)) as [tr|] eqn:Htr.
    - by destruct (SubprocessCLITransport.Disconnect tr) as [[tr1 effs] err].
    - simpl. split; [|assumption].
      destruct (Client.connected (session ops)); [|reflexivity].
      destruct Hok as (tr & Htr' & _); [reflexivity|]. congruence. }
  destruct Hoff as [Hoff Hnone]. repeat split; try assumption.
  - intros write prompt sessionID. unfold Client.Query. by rewrite Hoff.
  - unfold Client.Interrupt. by rewrite Hoff.
  - intros frames. unfold Client.ReceiveMessages. by rewrite Hoff.
Qed.

(** X11. [Client.Connect] on a connected client does nothing. On a client
    that is not connected, with the executable found and the process started,
    it yields a connected client; its transport streams and has a stdin pipe
    when the prompt is nil or a channel, and does neither when the prompt is a
    string. A prompt of any other type, also a slice, is refused before
    anything is created, and the client is left as it was. *)
Theorem Connect_by_prompt (c : Client.t) (path : string)
    (prompt : SubprocessCLITransport.prompt) :
  (Client.connected c = true ->
   forall findCLI os, Client.Connect findCLI os c prompt = (c, [], None))
  /\ (Client.connected c = false ->
      let r := Client.Connect (Ok path) SubprocessCLITransport.Started c prompt in
      match prompt with
      | SubprocessCLITransport.PromptNil | SubprocessCLITransport.PromptChan _
      | SubprocessCLITransport.PromptRecvChan _ =>
          r.2 = None /\ r.1.2 = [CreateStderrFile; StartProcess]
          /\ Client.connected r.1.1 = true
          /\ exists tr, Client.transport r.1.1 = Some tr
                        /\ SubprocessCLITransport.isStreaming tr = true
                        /\ SubprocessCLITransport.stdin tr = true
                        /\ SubprocessCLITransport.closeStdinAfterPrompt tr = false
      | SubprocessCLITransport.PromptString _ =>
          r.2 = None /\ r.1.2 = [CreateStderrFile; StartProcess]
          /\ Client.connected r.1.1 = true
          /\ exists tr, Client.transport r.1.1 = Some tr
                        /\ SubprocessCLITransport.isStreaming tr = false
                        /\ SubprocessCLITransport.stdin tr = false
                        /\ SubprocessCLITransport.closeStdinAfterPrompt tr = false
      | _ =>
          r = (c, [], Some (Errorf ("unsupported prompt type: "
                                      +:+ SubprocessCLITransport.type_name prompt)))
      end).
Proof.
  split.
  - intros Hc findCLI os. unfold Client.Connect. by rewrite Hc.
  - intros Hc. unfold Client.Connect. rewrite Hc.
    destruct prompt; simpl; try reflexivity;
      repeat split; eexists; repeat split.
Qed.

Lemma Connect_by_prompt_sample :
  Client.Connect (Ok "claude") SubprocessCLITransport.Started Client.New
    (SubprocessCLITransport.PromptSlice [])
  = (Client.New, [],
     Some (Errorf ("unsupported prompt type: "
                   +:+ SubprocessCLITransport.type_name (SubprocessCLITransport.PromptSlice [])))).
Proof.
  apply (proj2 (Connect_by_prompt Client.New "claude" (SubprocessCLITransport.PromptSlice []))).
  reflexivity.
Defined.

(** ** transport.go and client.go: sending *)

Section Outbound.
Variable write : MessageData.t -> option error.
Implicit Types (metadata : gmap string value) (messages : list MessageData.t).

Lemma send_all_outbound metadata messages :
  let r := SubprocessCLITransport.send_all write metadata messages in
  r.1 = WriteStdin <$> written r.1
  /\ written r.1 `prefix_of` (outbound metadata <$> messages)
  /\ (r.2 = None -> written r.1 = outbound metadata <$> messages)
  /\ (forall e, r.2 = Some e ->
        exists sent msg, written r.1 = sent ++ [msg]
                         /\ write msg = Some e
                         /\ Forall (fun m => write m = None) sent).
Proof.
  induction messages as [|msg messages IH]; simpl.
  - repeat split; [done|discriminate].
  - fold (outbound metadata msg).
    assert (Hout : (if String.eqb (MessageData.SessionID msg) "" then
                      match as_string (metadata !! "session_id") with
                      | Some sessionID => SubprocessCLITransport.with_session sessionID msg
                      | None => SubprocessCLITransport.with_session "default" msg
                      end
                    else msg) = outbound metadata msg).
    { unfold outbound. by destruct (as_string (metadata !! "session_id")). }
    rewrite Hout. destruct (write (outbound metadata msg)) as [e|] eqn:Hw; simpl.
    + repeat split.
      * apply prefix_cons, prefix_nil.
      * discriminate.
      * intros e' [= <-]. exists [], (outbound metadata msg). by repeat split.
    + destruct (SubprocessCLITransport.send_all write metadata messages) as [effs err].
      simpl in *. destruct IH as (Hall & Hpre & Hnone & Hsome). repeat split.
      * by rewrite Hall at 1.
      * by apply prefix_cons.
      * intros H. by rewrite (Hnone H).
      * intros e H. destruct (Hsome e H) as (sent & m & Hw' & Hm & Hsent).
        exists (outbound metadata msg :: sent), m. rewrite Hw'. repeat split; [assumption|].
        by constructor.
Qed.
End Outbound.

(** X12. On a transport that streams and has its stdin pipe, [SendRequest]
    writes the frames in the order given, each with a session put in when it
    names none, and stops at the first write that fails: what was written is a
    prefix of the batch; with a nil error it is the whole batch, and with an
    error the last frame written is the one whose write failed. *)
Theorem SendRequest_in_order (write : MessageData.t -> option error)
    (tr : SubprocessCLITransport.t) (messages : list MessageData.t)
    (metadata : gmap string value) :
  SubprocessCLITransport.isStreaming tr = true ->
  SubprocessCLITransport.stdin tr = true ->
  let r := SubprocessCLITransport.SendRequest write tr messages metadata in
  r.1 = WriteStdin <$> written r.1
  /\ written r.1 `prefix_of` (outbound metadata <$> messages)
  /\ (r.2 = None -> written r.1 = outbound metadata <$> messages)
  /\ (forall e, r.2 = Some e ->
        exists sent msg, written r.1 = sent ++ [msg]
                         /\ write msg = Some e
                         /\ Forall (fun m => write m = None) sent).
Proof.
  intros Hs Hin. unfold SubprocessCLITransport.SendRequest. rewrite Hs, Hin. simpl.
  apply send_all_outbound.
Qed.

Lemma SendRequest_in_order_sample :
  written (SubprocessCLITransport.SendRequest (fun _ => None) Sample.streaming_transport
             [Client.user_turn "hi" ""; Client.user_turn "again" "s2"] ∅).1
  = outbound ∅ <$> [Client.user_turn "hi" ""; Client.user_turn "again" "s2"].
Proof.
  apply (proj1 (proj2 (proj2 (SendRequest_in_order (fun _ => None) Sample.streaming_transport
           [Client.user_turn "hi" ""; Client.user_turn "again" "s2"] ∅ eq_refl eq_refl))));
    reflexivity.
Defined.

(** X13. After [Disconnect] a transport that streams has no stdin pipe any
    more: [SendRequest] returns the "stdin not available" error and writes
    nothing, whatever the batch. *)
Theorem SendRequest_after_Disconnect (write : MessageData.t -> option error)
    (tr : SubprocessCLITransport.t) (messages : list MessageData.t)
    (metadata : gmap string value) :
  SubprocessCLITransport.isStreaming tr = true ->
  SubprocessCLITransport.connected tr = true ->
  SubprocessCLITransport.SendRequest write (SubprocessCLITransport.Disconnect tr).1.1
    messages metadata
  = ([], Some (Errorf "stdin not available - stream may have ended")).
Proof.
  intros Hs Hc. unfold SubprocessCLITransport.Disconnect. rewrite Hc. simpl.
  unfold SubprocessCLITransport.SendRequest. simpl. by rewrite Hs.
Qed.

Lemma SendRequest_after_Disconnect_sample :
  SubprocessCLITransport.SendRequest (fun _ => None)
    (SubprocessCLITransport.Disconnect Sample.streaming_transport).1.1
    [Client.user_turn "hi" "s1"] ∅
  = ([], Some (Errorf "stdin not available - stream may have ended")).
Proof. apply SendRequest_after_Disconnect; reflexivity. Defined.

Lemma session_or_default_not_empty (sessionID : string) :
  Client.session_or_default sessionID <> "".
Proof.
  unfold Client.session_or_default.
  destruct (String.eqb_spec sessionID "") as [->|H]; [discriminate|assumption].
Qed.

Lemma outbound_session (sessionID : string) (msg : MessageData.t) :
  sessionID <> "" ->
  MessageData.SessionID (outbound (<["session_id" := VString sessionID]> ∅) msg) <> "".
Proof.
  intros Hne. unfold outbound.
  destruct (String.eqb_spec (MessageData.SessionID msg) "") as [Hm|Hm]; [|assumption].
  rewrite lookup_insert_eq. simpl. assumption.
Qed.

(** X14. Every frame that [Client.Query] writes names a session: a frame
    without one gets the session of the call, or "default" when the call
    names none. A string prompt on a connected, streaming client whose writes
    succeed is written as one user frame with role "user", the prompt as
    content and that session, and the call returns nil. *)
Theorem Query_frames_name_a_session (write : MessageData.t -> option error) (c : Client.t)
    (prompt : SubprocessCLITransport.prompt) (sessionID : string) :
  Forall (fun msg => MessageData.SessionID msg <> "")
    (written (Client.Query write c prompt sessionID).1)
  /\ (forall tr p,
        Client.connected c = true ->
        Client.transport c = Some tr ->
        SubprocessCLITransport.isStreaming tr = true ->
        SubprocessCLITransport.stdin tr = true ->
        prompt = SubprocessCLITransport.PromptString p ->
        write (Client.user_turn p (Client.session_or_default sessionID)) = None ->
        Client.Query write c prompt sessionID
        = ([WriteStdin (Client.user_turn p (Client.session_or_default sessionID))],
           Returns None)).
Proof.
  split.
  - unfold Client.Query. destruct (Client.connected c); [|constructor]. simpl.
    destruct (Client.prompt_messages prompt (Client.session_or_default sessionID))
      as [[[|msg msgs]|]|e]; try constructor.
    destruct (Client.transport c) as [tr|]; [|constructor].
    unfold SubprocessCLITransport.SendRequest.
    destruct (negb (SubprocessCLITransport.isStreaming tr)); [constructor|].
    destruct (negb (SubprocessCLITransport.stdin tr)); [constructor|].
    pose proof (send_all_outbound write
                  (<["session_id" := VString (Client.session_or_default sessionID)]> ∅)
                  (msg :: msgs)) as (_ & Hpre & _).
    destruct (SubprocessCLITransport.send_all write _ (msg :: msgs)) as [effs err].
    simpl in *. destruct Hpre as [rest Hrest].
    assert (Hall : Forall (fun m => MessageData.SessionID m <> "")
              (outbound (<["session_id" := VString (Client.session_or_default sessionID)]> ∅)
                 <$> msg :: msgs)).
    { apply Forall_fmap, Forall_forall. intros m _.
      apply outbound_session, session_or_default_not_empty. }
    change (outbound (<["session_id" := VString (Client.session_or_default sessionID)]> ∅)
              <$> msg :: msgs) with
      (outbound (<["session_id" := VString (Client.session_or_default sessionID)]> ∅) msg
         :: list_fmap _ _
              (outbound (<["session_id" := VString (Client.session_or_default sessionID)]> ∅))
              msgs) in Hall.
    rewrite Hrest in Hall. by apply Forall_app in Hall as [Hall _].
  - intros tr p Hc Htr Hs Hin -> Hw. unfold Client.Query. rewrite Hc, Htr. simpl.
    unfold SubprocessCLITransport.SendRequest. rewrite Hs, Hin. simpl.
    assert (Hsid : String.eqb (Client.session_or_default sessionID) "" = false).
    { apply String.eqb_neq, session_or_default_not_empty. }
    rewrite Hsid, Hw. reflexivity.
Qed.

Lemma Query_frames_name_a_session_sample :
  Client.Query (fun _ => None) Sample.interactive
    (SubprocessCLITransport.PromptString "What is 2+2?") ""
  = ([WriteStdin (Client.user_turn "What is 2+2?" (Client.session_or_default ""))],
     Returns None).
Proof.
  apply (proj2 (Query_frames_name_a_session (fun _ => None) Sample.interactive
                  (SubprocessCLITransport.PromptString "What is 2+2?") "")
           Sample.streaming_transport "What is 2+2?"); reflexivity.
Defined.




(** ** transport.go: the reader, over all outputs of the child *)

Section ReaderInvariant.
Variable Unmarshal : string -> option MessageData.t.
Implicit Types (st : SubprocessCLITransport.reader) (text buffer : string).
Implicit Types (lines : list string).

Lemma len_nonneg s : 0 <= len s.
Proof. unfold len. lia. Qed.

Lemma append_empty_r s : s +:+ "" = s.
Proof.
  induction s as [|c s IH]; [reflexivity|].
  change (String c (s +:+ "") = String c s). by f_equal.
Qed.

Lemma append_assoc s1 s2 s3 : (s1 +:+ s2) +:+ s3 = s1 +:+ (s2 +:+ s3).
Proof.
  induction s1 as [|c s1 IH]; [reflexivity|].
  change (String c ((s1 +:+ s2) +:+ s3) = String c (s1 +:+ (s2 +:+ s3))). by f_equal.
Qed.

Lemma reader0_ok : reader_ok Unmarshal SubprocessCLITransport.reader0.
Proof.
  unfold reader_ok. simpl. repeat split; [lia| |constructor].
  intros _. vm_compute. discriminate.
Qed.

Lemma send_err_ok e buffer st :
  len buffer <= maxBufferSize ->
  (length (SubprocessCLITransport.errChan st) <= 1)%nat ->
  Forall (fun data =>
            MessageData.Type_ data <> "control_response"
            /\ exists text, len text <= maxBufferSize /\ Unmarshal text = Some data)
    (SubprocessCLITransport.msgChan st) ->
  reader_ok Unmarshal (SubprocessCLITransport.send_err e buffer st).
Proof.
  intros Hb He Hm. unfold SubprocessCLITransport.send_err, SubprocessCLITransport.errChanCap.
  destruct (Nat.ltb_spec (length (SubprocessCLITransport.errChan st)) 1) as [Hlt|Hge];
    unfold reader_ok; simpl; repeat split; try assumption; try discriminate.
  - rewrite length_app. simpl. lia.
  - intros _. assumption.
Qed.

Lemma read_line_ok st text :
  reader_ok Unmarshal st ->
  SubprocessCLITransport.blocked st = false ->
  reader_ok Unmarshal (SubprocessCLITransport.read_line Unmarshal st text).
Proof.
  intros (He & Hb & Hm) Hrun. unfold SubprocessCLITransport.read_line.
  destruct (String.eqb (TrimSpace text) ""); [by repeat split|].
  destruct (Z.ltb_spec maxBufferSize
              (len (SubprocessCLITransport.jsonBuffer st +:+ TrimSpace text))) as [Hlt|Hle].
  - apply send_err_ok; simpl; try assumption. vm_compute. discriminate.
  - destruct (Unmarshal _) as [data|] eqn:Hdata.
    + destruct (String.eqb_spec (MessageData.Type_ data) "control_response") as [Hty|Hty];
        unfold reader_ok; simpl; repeat split; try assumption;
        try (intros _; vm_compute; discriminate).
      apply Forall_app. split; [assumption|]. constructor; [|constructor].
      split; [assumption|]. by eexists.
    + unfold reader_ok; simpl. repeat split; try assumption. intros _. assumption.
Qed.

Lemma read_lines_ok st lines :
  reader_ok Unmarshal st ->
  reader_ok Unmarshal (SubprocessCLITransport.read_lines Unmarshal st lines).
Proof.
  revert st. induction lines as [|text rest IH]; intros st Hok; simpl; [assumption|].
  destruct (SubprocessCLITransport.blocked st) eqn:Hb; [assumption|].
  by apply IH, read_line_ok.
Qed.

Lemma read_lines_blank st lines :
  SubprocessCLITransport.read_lines Unmarshal st lines
  = SubprocessCLITransport.read_lines Unmarshal st
      (filter (fun text => TrimSpace text <> "") lines).
Proof.
  revert st. induction lines as [|text rest IH]; intros st; [reflexivity|].
  destruct (SubprocessCLITransport.blocked st) eqn:Hb.
  { by rewrite !read_lines_blocked. }
  destruct (String.eqb_spec (TrimSpace text) "") as [Hblank|Hfull].
  - rewrite filter_cons_False by (intros H; by apply H).
    rewrite <- IH. simpl. rewrite Hb. unfold SubprocessCLITransport.read_line.
    by rewrite Hblank.
  - rewrite filter_cons_True by assumption. simpl. rewrite Hb. apply IH.
Qed.

Lemma read_lines_pieces buffer msgs errs pieces data :
  pieces <> [] ->
  Forall (fun text => TrimSpace text <> "") pieces ->
  (forall k, (0 < k < length pieces)%nat ->
             Unmarshal (buffer +:+ joined (take k pieces)) = None) ->
  Unmarshal (buffer +:+ joined pieces) = Some data ->
  MessageData.Type_ data <> "control_response" ->
  len (buffer +:+ joined pieces) <= maxBufferSize ->
  SubprocessCLITransport.read_lines Unmarshal
    (SubprocessCLITransport.running buffer msgs errs) pieces
  = SubprocessCLITransport.running "" (msgs ++ [data]) errs.
Proof.
  revert buffer. induction pieces as [|text rest IH]; intros buffer Hne Hfull Hpre Hall Hty Hlen;
    [done|].
  apply Forall_cons in Hfull as [Htext Hrest].
  apply String.eqb_neq in Htext. apply String.eqb_neq in Hty.
  rewrite read_lines_cons. simpl in Hall, Hlen.
  destruct rest as [|text' rest].
  - simpl in Hall, Hlen. rewrite append_empty_r in Hall, Hlen.
    by rewrite (read_line_decodes Unmarshal buffer msgs errs text data).
  - rewrite <- append_assoc in Hall, Hlen.
    assert (Hfit : len (buffer +:+ TrimSpace text) <= maxBufferSize).
    { rewrite len_append in Hlen. pose proof (len_nonneg (joined (text' :: rest))). lia. }
    rewrite read_line_accumulates; [|assumption..|].
    + apply IH; try assumption; [done| |by apply String.eqb_neq].
      intros k Hk. rewrite append_assoc. apply (Hpre (S k)). simpl in *. lia.
    + specialize (Hpre 1%nat). simpl in Hpre. rewrite append_empty_r in Hpre.
      apply Hpre. lia.
Qed.

Lemma read_lines_fit buffer msgs lines :
  len (buffer +:+ joined lines) <= maxBufferSize ->
  exists buffer' msgs',
    SubprocessCLITransport.read_lines Unmarshal
      (SubprocessCLITransport.running buffer msgs []) lines
    = SubprocessCLITransport.running buffer' msgs' [].
Proof.
  revert buffer msgs. induction lines as [|text rest IH]; intros buffer msgs Hlen.
  { by exists buffer, msgs. }
  rewrite read_lines_cons. simpl in Hlen. rewrite <- append_assoc in Hlen.
  assert (Hfit : len (buffer +:+ TrimSpace text) <= maxBufferSize).
  { rewrite len_append in Hlen. pose proof (len_nonneg (joined rest)). lia. }
  assert (Hrest : len (joined rest) <= maxBufferSize).
  { rewrite len_append in Hlen. pose proof (len_nonneg (buffer +:+ TrimSpace text)). lia. }
  unfold SubprocessCLITransport.read_line. simpl.
  destruct (String.eqb_spec (TrimSpace text) "") as [Hblank|Hfull].
  { apply IH. rewrite Hblank, append_empty_r in Hlen. assumption. }
  destruct (Z.ltb_spec maxBufferSize (len (buffer +:+ TrimSpace text))); [lia|].
  destruct (Unmarshal _) as [data|]; [destruct (String.eqb _ _)|]; by apply IH.
Qed.
End ReaderInvariant.

(** X16. Whatever the child prints and however it ends, the reader sends at
    most one error on its error channel, never hands on a frame of type
    "control_response", hands on only frames decoded from a text within the
    buffer limit, and, while it is not stuck in a send, holds a buffer within
    the limit. *)
Theorem readMessages_invariant (Unmarshal : string -> option MessageData.t)
    (lines : list string) (scanErr waitErr : option error) (stderr : string) :
  reader_ok Unmarshal
    (SubprocessCLITransport.readMessages Unmarshal lines scanErr waitErr stderr).
Proof.
  unfold SubprocessCLITransport.readMessages.
  pose proof (read_lines_ok Unmarshal SubprocessCLITransport.reader0 lines
                (reader0_ok Unmarshal)) as Hloop.
  set (st := SubprocessCLITransport.read_lines Unmarshal SubprocessCLITransport.reader0 lines)
    in *.
  assert (Hscan : reader_ok Unmarshal
            (if SubprocessCLITransport.blocked st then st
             else match scanErr with
                  | Some e => SubprocessCLITransport.send_err e
                                (SubprocessCLITransport.jsonBuffer st) st
                  | None => st
                  end)).
  { destruct (SubprocessCLITransport.blocked st) eqn:Hb; [assumption|].
    destruct scanErr as [e|]; [|assumption].
    destruct Hloop as (He & Hbuf & Hm). apply send_err_ok; auto. }
  set (st1 := if SubprocessCLITransport.blocked st then st else _) in *.
  destruct (SubprocessCLITransport.blocked st1) eqn:Hb1; [assumption|].
  destruct waitErr as [e|]; [|assumption].
  destruct Hscan as (He & Hbuf & Hm).
  destruct (0 <? len stderr); apply send_err_ok; auto.
Qed.

(** X17. Lines that are empty or hold only white space change nothing: the
    reader ends in the same state as on the output without them. *)
Theorem readMessages_ignores_blank_lines (Unmarshal : string -> option MessageData.t)
    (lines : list string) (scanErr waitErr : option error) (stderr : string) :
  SubprocessCLITransport.readMessages Unmarshal lines scanErr waitErr stderr
  = SubprocessCLITransport.readMessages Unmarshal
      (filter (fun text => TrimSpace text <> "") lines) scanErr waitErr stderr.
Proof.
  unfold SubprocessCLITransport.readMessages. by rewrite <- read_lines_blank.
Qed.

(** X18. A JSON value that the child prints over several lines is put
    together again: when no proper part of the lines decodes, the whole does
    and fits the buffer, the reader hands on that one frame and empties its
    buffer. The lines are joined trimmed, with nothing in between. *)
Theorem split_frame_reassembled (Unmarshal : string -> option MessageData.t)
    (msgs : list MessageData.t) (errs : list error) (pieces : list string)
    (data : MessageData.t) :
  pieces <> [] ->
  Forall (fun text => TrimSpace text <> "") pieces ->
  (forall k, (0 < k < length pieces)%nat -> Unmarshal (joined (take k pieces)) = None) ->
  Unmarshal (joined pieces) = Some data ->
  MessageData.Type_ data <> "control_response" ->
  len (joined pieces) <= maxBufferSize ->
  SubprocessCLITransport.read_lines Unmarshal
    (SubprocessCLITransport.running "" msgs errs) pieces
  = SubprocessCLITransport.running "" (msgs ++ [data]) errs.
Proof. intros. by apply read_lines_pieces. Qed.

Lemma split_frame_reassembled_sample :
  SubprocessCLITransport.msgChan
    (SubprocessCLITransport.read_lines json.Unmarshal_MessageData
       SubprocessCLITransport.reader0 [More.piece_1; More.piece_2])
  = [More.frame_init].
Proof.
  unfold SubprocessCLITransport.reader0.
  rewrite (split_frame_reassembled json.Unmarshal_MessageData [] []
             [More.piece_1; More.piece_2] More.frame_init).
  - reflexivity.
  - discriminate.
  - repeat constructor; vm_compute; discriminate.
  - intros k Hk. simpl in Hk. assert (k = 1%nat) as -> by lia. vm_compute. reflexivity.
  - vm_compute. reflexivity.
  - vm_compute. discriminate.
  - vm_compute. discriminate.
Defined.

(** X19. How the reader ends when the child's whole output fits the buffer:
    no error when the scanner and the child end well; one error when one of
    them fails, told with the captured stderr when the child fails and has
    written some; and when both fail, the scanner's error is sent and the
    reader is stuck for ever in the second send, so it never returns. The
    frames handed on are those of the loop in every case. *)
Theorem readMessages_exit (Unmarshal : string -> option MessageData.t)
    (lines : list string) (scanErr waitErr : option error) (stderr : string) :
  len (joined lines) <= maxBufferSize ->
  let st := SubprocessCLITransport.readMessages Unmarshal lines scanErr waitErr stderr in
  SubprocessCLITransport.msgChan st
  = SubprocessCLITransport.msgChan
      (SubprocessCLITransport.read_lines Unmarshal SubprocessCLITransport.reader0 lines)
  /\ match scanErr, waitErr with
     | None, None =>
         SubprocessCLITransport.errChan st = []
         /\ SubprocessCLITransport.blocked st = false
     | Some e, None =>
         SubprocessCLITransport.errChan st = [e]
         /\ SubprocessCLITransport.blocked st = false
     | None, Some e =>
         SubprocessCLITransport.errChan st
         = [if 0 <? len stderr then Errorf ("command failed: " +:+ stderr) else e]
         /\ SubprocessCLITransport.blocked st = false
     | Some e, Some _ =>
         SubprocessCLITransport.errChan st = [e]
         /\ SubprocessCLITransport.blocked st = true
     end.
Proof.
  intros Hfit. unfold SubprocessCLITransport.readMessages.
  destruct (read_lines_fit Unmarshal "" [] lines Hfit) as (buffer & msgs & Hloop).
  unfold SubprocessCLITransport.reader0. rewrite Hloop. simpl.
  destruct scanErr as [e|], waitErr as [e'|]; simpl; try (by repeat split).
  - destruct (0 <? len stderr); by repeat split.
  - destruct (0 <? len stderr); by repeat split.
Qed.

Lemma readMessages_exit_sample :
  SubprocessCLITransport.blocked
    (SubprocessCLITransport.readMessages json.Unmarshal_MessageData
       [More.piece_1; More.piece_2] (Some (Errorf "read |0: file already closed"))
       (Some (Errorf "exit status 1")) "")
  = true.
Proof.
  apply (readMessages_exit json.Unmarshal_MessageData [More.piece_1; More.piece_2]
           (Some (Errorf "read |0: file already closed")) (Some (Errorf "exit status 1")) "").
  vm_compute. discriminate.
Defined.

(** ** query.go: prompts that the one-shot query refuses *)

(** X20. A prompt that is neither a string nor a channel of maps (nil, a
    slice of maps, any other value) is refused by the one-shot [Query]
    before anything is searched or started: the stream holds the one system
    message of subtype "error" that names the type, and [QuerySync] returns
    that message with a connection error of the same text, whatever the
    environment would have answered. *)
Theorem QuerySync_unsupported_prompt (findCLI : result string)
    (os : SubprocessCLITransport.spawn) (msgChan : list MessageData.t)
    (prompt : SubprocessCLITransport.prompt) :
  (forall s, prompt <> SubprocessCLITransport.PromptString s) ->
  (forall msgs, prompt <> SubprocessCLITransport.PromptChan msgs) ->
  (forall msgs, prompt <> SubprocessCLITransport.PromptRecvChan msgs) ->
  let text := "unsupported prompt type: " +:+ SubprocessCLITransport.type_name prompt in
  Query findCLI os msgChan prompt = [error_message (Errorf text)]
  /\ QuerySync findCLI os msgChan prompt
     = ([error_message (Errorf text)], Some (CLIConnectionError text)).
Proof.
  intros Hs Hc Hr. unfold QuerySync, Query.
  destruct prompt as [|s|msgs|msgs|msgs|n]; try (by split);
    [by destruct (Hs s)|by destruct (Hc msgs)|by destruct (Hr msgs)].
Qed.

Lemma QuerySync_unsupported_prompt_sample :
  QuerySync (Ok "claude") SubprocessCLITransport.Started
    (Sample.frames [Sample.line_hi; Sample.line_success])
    (SubprocessCLITransport.PromptSlice [])
  = ([error_message (Errorf "unsupported prompt type: []map[string]interface {}")],
     Some (CLIConnectionError "unsupported prompt type: []map[string]interface {}")).
Proof.
  apply (QuerySync_unsupported_prompt (Ok "claude") SubprocessCLITransport.Started
           (Sample.frames [Sample.line_hi; Sample.line_success])
           (SubprocessCLITransport.PromptSlice [])); intros; discriminate.
Defined.

(** ** transport.go: the search for the executable *)

Section Search.
Variable LookPath : string -> option string.
Variable Stat : string -> bool.
Variable HOME : string.
Variable filepath_Join : string -> string -> string.

Lemma find_first {A} (f : A -> bool) (l : list A) (x : A) :
  List.find f l = Some x
  <-> exists pre post, l = pre ++ x :: post /\ f x = true /\ Forall (fun y => f y = false) pre.
Proof.
  induction l as [|y l IH]; simpl.
  - split; [discriminate|]. intros (pre & post & H & _). by destruct pre.
  - destruct (f y) eqn:Hy.
    + split.
      * intros [= <-]. exists [], l. by repeat split.
      * intros ([|z pre] & post & Heq & Hx & Hpre).
        -- by injection Heq as -> _.
        -- injection Heq as -> _. apply Forall_cons in Hpre as [Hz _]. congruence.
    + rewrite IH. split.
      * intros (pre & post & -> & Hx & Hpre). exists (y :: pre), post.
        repeat split; [assumption|by constructor].
      * intros ([|z pre] & post & Heq & Hx & Hpre).
        -- injection Heq as -> _. congruence.
        -- injection Heq as -> ->. apply Forall_cons in Hpre as [_ Hpre].
           by exists pre, post.
Qed.

Lemma find_none {A} (f : A -> bool) (l : list A) :
  List.find f l = None <-> Forall (fun y => f y = false) l.
Proof.
  induction l as [|y l IH]; simpl.
  - split; [constructor|reflexivity].
  - destruct (f y) eqn:Hy.
    + split; [discriminate|]. intros H. apply Forall_cons in H as [H _]. congruence.
    + rewrite IH. split; [by constructor|]. intros H. by apply Forall_cons in H as [_ H].
Qed.
End Search.

(** X21. [findCLI] returns a path exactly when "claude" is on the PATH,
    and then that path, or else when one of the five usual places exists,
    and then the first of them in the order of the list. It fails exactly
    when neither is the case, and the error tells of Node.js exactly when
    "node" is not on the PATH either. *)
Theorem findCLI_finds_first (LookPath : string -> option string) (Stat : string -> bool)
    (HOME : string) (filepath_Join : string -> string -> string) (path : string) :
  (findCLI LookPath Stat HOME filepath_Join = Ok path
   <-> LookPath "claude" = Some path
       \/ (LookPath "claude" = None
           /\ exists pre post,
                locations HOME filepath_Join = pre ++ path :: post
                /\ Stat path = true
                /\ Forall (fun other => Stat other = false) pre))
  /\ ((exists e, findCLI LookPath Stat HOME filepath_Join = Err e)
      <-> LookPath "claude" = None
          /\ Forall (fun other => Stat other = false) (locations HOME filepath_Join))
  /\ (findCLI LookPath Stat HOME filepath_Join = Err node_missing
      -> LookPath "node" = None)
  /\ (findCLI LookPath Stat HOME filepath_Join = Err claude_missing
      -> exists node, LookPath "node" = Some node).
Proof.
  unfold findCLI. destruct (LookPath "claude") as [found|] eqn:Hfound.
  { split; [|split; [|split]].
    - split.
      + intros [= <-]. by left.
      + intros [[= <-]|[Hno _]]; [reflexivity|discriminate].
    - split.
      + intros [e He]. discriminate.
      + intros [Hno _]. discriminate.
    - discriminate.
    - discriminate. }
  destruct (List.find Stat (locations HOME filepath_Join)) as [place|] eqn:Hplace.
  { split; [|split; [|split]].
    - split.
      + intros [= <-]. right. split; [reflexivity|]. by apply find_first.
      + intros [Hno|[_ Hfirst]]; [discriminate|]. apply find_first in Hfirst. congruence.
    - split.
      + intros [e He]. discriminate.
      + intros [_ Hnone]. apply find_none in Hnone. congruence.
    - discriminate.
    - discriminate. }
  apply find_none in Hplace. split; [|split; [|split]].
  - split.
    + destruct (LookPath "node"); discriminate.
    + intros [Hno|[_ (pre & post & Heq & Hstat & _)]]; [discriminate|].
      rewrite Heq in Hplace. apply Forall_app in Hplace as [_ Hplace].
      apply Forall_cons in Hplace as [Hplace _]. congruence.
  - split; [by intros _|]. intros _. destruct (LookPath "node"); by eexists.
  - destruct (LookPath "node"); [discriminate|reflexivity].
  - destruct (LookPath "node"); [by eexists|].
    intros He. vm_compute in He. discriminate.
Qed.

Lemma findCLI_finds_first_sample :
  findCLI (fun _ => None) (fun path => String.eqb path "/usr/local/bin/claude")
    "/home/u" (fun dir name => dir +:+ "/" +:+ name)
  = Ok "/usr/local/bin/claude".
Proof.
  apply (proj1 (findCLI_finds_first (fun _ => None)
                  (fun path => String.eqb path "/usr/local/bin/claude")
                  "/home/u" (fun dir name => dir +:+ "/" +:+ name) "/usr/local/bin/claude")).
  right. split; [reflexivity|].
  exists ["/home/u/.npm-global/bin/claude"],
    ["/home/u/.local/bin/claude"; "/home/u/node_modules/.bin/claude";
     "/home/u/.yarn/bin/claude"].
  repeat split. repeat constructor.
Defined.

(** ** transport.go: the command line *)

(** X22. The shape of the command line. It starts with the executable and
    the three fixed arguments and ends with the mode: for a transport that
    streams "--input-format stream-json", with the prompt nowhere on the
    line, and otherwise "--print" and the prompt as one argument; what is in
    between is the same in both modes. The default options add nothing in
    between, and options that name MCP servers pass their JSON text, not the
    path of a configuration file. *)
Theorem buildCommand_shape (marshalMCP : gmap string MCPServerConfig.t -> string)
    (cliPath : string) (options : ClaudeCodeOptions.t) :
  exists flags,
    (forall prompt,
       buildCommand marshalMCP cliPath options true prompt
       = [cliPath; "--output-format"; "stream-json"; "--verbose"] ++ flags
         ++ ["--input-format"; "stream-json"])
    /\ (forall p,
          buildCommand marshalMCP cliPath options false (SubprocessCLITransport.PromptString p)
          = [cliPath; "--output-format"; "stream-json"; "--verbose"] ++ flags
            ++ ["--print"; p])
    /\ (options = NewClaudeCodeOptions -> flags = [])
    /\ (ClaudeCodeOptions.MCPServers options <> ∅ ->
        exists before,
          flags = before
                  ++ ["--mcp-config"; marshalMCP (ClaudeCodeOptions.MCPServers options)]
                  ++ extra_args (ClaudeCodeOptions.ExtraArgs options)).
Proof.
  exists (flag_opt "--system-prompt" (ClaudeCodeOptions.SystemPrompt options)
          ++ flag_opt "--append-system-prompt" (ClaudeCodeOptions.AppendSystemPrompt options)
          ++ flag_list "--allowedTools" (ClaudeCodeOptions.AllowedTools options)
          ++ flag_opt "--max-turns" (pretty <$> ClaudeCodeOptions.MaxTurns options)
          ++ flag_list "--disallowedTools" (ClaudeCodeOptions.DisallowedTools options)
          ++ flag_opt "--model" (ClaudeCodeOptions.Model options)
          ++ flag_opt "--permission-prompt-tool"
               (ClaudeCodeOptions.PermissionPromptToolName options)
          ++ flag_opt "--permission-mode" (ClaudeCodeOptions.PermissionMode options)
          ++ (if ClaudeCodeOptions.ContinueConversation options then ["--continue"] else [])
          ++ flag_opt "--resume" (ClaudeCodeOptions.Resume options)
          ++ flag_opt "--settings" (ClaudeCodeOptions.Settings options)
          ++ add_dirs (ClaudeCodeOptions.AddDirs options)
          ++ mcp_config marshalMCP options
          ++ extra_args (ClaudeCodeOptions.ExtraArgs options)).
  split; [|split; [|split]].
  - intros prompt. unfold buildCommand, prompt_args. by rewrite <- !app_assoc.
  - intros p. unfold buildCommand, prompt_args. by rewrite <- !app_assoc.
  - intros ->. reflexivity.
  - intros Hmcp. unfold mcp_config. rewrite bool_decide_eq_false_2 by assumption.
    eexists. rewrite !app_assoc. reflexivity.
Qed.

Lemma buildCommand_shape_sample :
  buildCommand (fun _ => "{}") "/usr/local/bin/claude" NewClaudeCodeOptions false
    (SubprocessCLITransport.PromptString "What is 2+2?")
  = ["/usr/local/bin/claude"; "--output-format"; "stream-json"; "--verbose";
     "--print"; "What is 2+2?"].
Proof.
  destruct (buildCommand_shape (fun _ => "{}") "/usr/local/bin/claude" NewClaudeCodeOptions)
    as (flags & _ & Hprint & Hdefault & _).
  rewrite Hprint, (Hdefault eq_refl). reflexivity.
Defined.

(** ** transport.go: streamInput *)

Section Input.
Variable marshal : gmap string value -> option string.
Variable write_ok : string -> bool.

End Input.



(** ** parser.go: what a content block and a result frame must hold *)

(** X24. [parseContentBlock] yields a block exactly when the element is a
    map whose "type" is a string naming one of the four kinds and whose
    required members are there with the right type: strings, and a map for
    the input of a tool use. A member of another type counts as missing. For
    a tool result the content is taken as it is (nil when missing) and
    is_error is kept only when it is a boolean. *)
Theorem parseContentBlock_accepts (item : value) (block : ContentBlock) :
  parseContentBlock item = Ok block
  <-> exists blockData,
        item = VMap blockData
        /\ match block with
           | TextBlock text =>
               blockData !! "type" = Some (VString "text")
               /\ blockData !! "text" = Some (VString text)
           | ThinkingBlock thinking signature =>
               blockData !! "type" = Some (VString "thinking")
               /\ blockData !! "thinking" = Some (VString thinking)
               /\ blockData !! "signature" = Some (VString signature)
           | ToolUseBlock id name input =>
               blockData !! "type" = Some (VString "tool_use")
               /\ blockData !! "id" = Some (VString id)
               /\ blockData !! "name" = Some (VString name)
               /\ blockData !! "input" = Some (VMap input)
           | ToolResultBlock toolUseID content isError =>
               blockData !! "type" = Some (VString "tool_result")
               /\ blockData !! "tool_use_id" = Some (VString toolUseID)
               /\ content = index blockData "content"
               /\ isError = as_bool (blockData !! "is_error")
           end.
Proof.
  split.
  - destruct item as [| | | | | |blockData]; try discriminate. simpl.
    intros H. exists blockData. split; [reflexivity|].
    destruct (blockData !! "type") as [[| | | |ty| |]|] eqn:Hty; try discriminate.
    simpl in H.
    destruct (String.eqb_spec ty "text") as [->|_].
    { destruct (blockData !! "text") as [[| | | |text| |]|]; try discriminate.
      by injection H as <-. }
    destruct (String.eqb_spec ty "thinking") as [->|_].
    { destruct (blockData !! "thinking") as [[| | | |thinking| |]|]; try discriminate.
      destruct (blockData !! "signature") as [[| | | |signature| |]|]; try discriminate.
      by injection H as <-. }
    destruct (String.eqb_spec ty "tool_use") as [->|_].
    { destruct (blockData !! "id") as [[| | | |id| |]|]; try discriminate.
      destruct (blockData !! "name") as [[| | | |name| |]|]; try discriminate.
      destruct (blockData !! "input") as [[| | | | | |input]|]; try discriminate.
      by injection H as <-. }
    destruct (String.eqb_spec ty "tool_result") as [->|_]; [|discriminate].
    destruct (blockData !! "tool_use_id") as [[| | | |toolUseID| |]|]; try discriminate.
    by injection H as <-.
  - intros (blockData & -> & H). unfold parseContentBlock.
    destruct block as [text|thinking signature|id name input|toolUseID content isError].
    + destruct H as [-> ->]. reflexivity.
    + destruct H as (-> & -> & ->). reflexivity.
    + destruct H as (-> & -> & -> & ->). reflexivity.
    + destruct H as (-> & -> & -> & ->). reflexivity.
Qed.

(** X25. A frame of type "result" is delivered exactly when its subtype and
    session are not empty and its two durations and its number of turns are
    positive; the message then holds the fields of the frame unchanged. So a
    result whose line gives 0 for one of the three numbers never reaches the
    caller. *)
Theorem result_frame_delivered (d : MessageData.t) :
  MessageData.Type_ d = "result" ->
  (is_ok (ParseMessage (messageDataToMap d)) = true
   <-> MessageData.Subtype d <> "" /\ MessageData.SessionID d <> ""
       /\ 0 < MessageData.DurationMS d /\ 0 < MessageData.DurationAPIMS d
       /\ 0 < MessageData.NumTurns d)
  /\ (forall msg,
        ParseMessage (messageDataToMap d) = Ok msg ->
        msg = Result {| ResultMessage.Subtype := MessageData.Subtype d;
                        ResultMessage.DurationMS := MessageData.DurationMS d;
                        ResultMessage.DurationAPIMS := MessageData.DurationAPIMS d;
                        ResultMessage.IsError := MessageData.IsError d;
                        ResultMessage.NumTurns := MessageData.NumTurns d;
                        ResultMessage.SessionID := MessageData.SessionID d;
                        ResultMessage.TotalCostUSD := MessageData.TotalCostUSD d;
                        ResultMessage.Usage := MessageData.Usage d;
                        ResultMessage.Result := MessageData.Result d |}).
Proof.
  intros Hty.
  assert (Hiff : is_ok (ParseMessage (messageDataToMap d)) = true
                 -> MessageData.Subtype d <> "" /\ MessageData.SessionID d <> ""
                    /\ 0 < MessageData.DurationMS d /\ 0 < MessageData.DurationAPIMS d
                    /\ 0 < MessageData.NumTurns d).
  { unfold ParseMessage. rewrite frame_type, Hty. simpl.
    unfold parseResultMessage, getInt.
    rewrite frame_subtype, frame_duration_ms, frame_duration_api_ms, frame_is_error,
      frame_num_turns, frame_session_id.
    unfold nonempty.
    destruct (String.eqb_spec (MessageData.Subtype d) "") as [|Hsub]; [discriminate|]. simpl.
    destruct (Z.ltb_spec 0 (MessageData.DurationMS d)); [|discriminate].
    destruct (Z.ltb_spec 0 (MessageData.DurationAPIMS d)); [|discriminate]. simpl.
    destruct (Z.ltb_spec 0 (MessageData.NumTurns d)); [|discriminate].
    destruct (String.eqb_spec (MessageData.SessionID d) "") as [|Hsid]; [discriminate|].
    by intros _. }
  split; [split; [exact Hiff|]|].
  - intros (Hsub & Hsid & Hd & Hda & Hturns).
    by rewrite (result_frame_decodes d Hty Hsub Hsid Hd Hda Hturns).
  - intros msg Hmsg.
    assert (Hok : is_ok (ParseMessage (messageDataToMap d)) = true) by (by rewrite Hmsg).
    destruct (Hiff Hok) as (Hsub & Hsid & Hd & Hda & Hturns).
    rewrite (result_frame_decodes d Hty Hsub Hsid Hd Hda Hturns) in Hmsg.
    by injection Hmsg as <-.
Qed.

Lemma result_frame_delivered_sample :
  is_ok (ParseMessage (messageDataToMap Sample.frame_success)) = true.
Proof.
  apply (proj1 (result_frame_delivered Sample.frame_success eq_refl)).
  repeat split; vm_compute; (discriminate || reflexivity).
Defined.
